(** * bloodhound-agent: the signed-request client and the Cypher query client

    A shallow embedding of [bloodhound/base.py] and [bloodhound/cypher.py]:
    the HMAC signature chain of [_request], the JSON facade [request],
    [run_query] with its status-code table and [run_query_with_retry].

    Python values are modelled as the interpreter has them: a [str] is a
    sequence of code points, [bytes] a sequence of octets, an [int] is a
    [Z].  The clock, the process environment and the network are inputs
    (a [World]); what a call does to the outside (requests sent, seconds
    slept) is recorded in a log that is threaded through every call. *)

From Stdlib Require Import ZArith NArith String Ascii Bool Lia.
From Stdlib.Strings Require Import Byte.
From Stdlib Require Import DecimalString List.
Import ListNotations.

Set Warnings "-register-all".
Local Open Scope string_scope.
Local Open Scope list_scope.
Local Open Scope Z_scope.

(* ================================================================== *)
(** ** Python values *)

Module Py.

(** A Python [str]: its code points, in order. *)
Definition str := list N.

(** A Python [bytes] object. *)
Definition bytes := list byte.

(** A string literal of the source (ASCII only). *)
Definition lit (s : string) : str := map N_of_ascii (list_ascii_of_string s).

Definition byte_of_N (n : N) : byte :=
  match Byte.of_N n with Some b => b | None => x00 end.

Definition Z_of_byte (b : byte) : Z := Z.of_N (Byte.to_N b).

Definition byte_of_Z (z : Z) : byte := byte_of_N (Z.to_N z).

(** A bytes literal of the source. *)
Definition blit (s : string) : bytes := map byte_of_N (lit s).

(** [c.encode()] for one code point: UTF-8.  A surrogate (U+D800..U+DFFF)
    has no encoding and [str.encode] raises [UnicodeEncodeError]; a number
    past U+10FFFF is no code point of a Python string. *)
Definition encode_char (c : N) : option bytes :=
  let cont (k : N) := byte_of_N (N.lor 0x80 (N.land (N.shiftr c k) 0x3F)) in
  if (c <? 0x80)%N then Some [byte_of_N c]
  else if (c <? 0x800)%N then
    Some [byte_of_N (N.lor 0xC0 (N.shiftr c 6)); cont 0%N]
  else if (c <? 0x10000)%N then
    if ((0xD800 <=? c) && (c <? 0xE000))%N then None
    else Some [byte_of_N (N.lor 0xE0 (N.shiftr c 12)); cont 6%N; cont 0%N]
  else if (c <? 0x110000)%N then
    Some [byte_of_N (N.lor 0xF0 (N.shiftr c 18)); cont 12%N; cont 6%N; cont 0%N]
  else None.

(** [s.encode()] / [s.encode("utf8")]; [None] stands for the
    [UnicodeEncodeError] raised on a lone surrogate. *)
Fixpoint encode (s : str) : option bytes :=
  match s with
  | [] => Some []
  | c :: rest =>
      match encode_char c, encode rest with
      | Some b, Some bs => Some (b ++ bs)
      | _, _ => None
      end
  end.

(** [s[:n]] *)
Definition slice_to (n : nat) (s : str) : str := firstn n s.

(** [s.startswith(p)] *)
Fixpoint startswith (s p : str) {struct p} : bool :=
  match p, s with
  | [], _ => true
  | _ :: _, [] => false
  | a :: p', b :: s' => N.eqb a b && startswith s' p'
  end.

Definition str_eqb (a b : str) : bool :=
  (Nat.eqb (length a) (length b) && startswith a b)%bool.

(** [str(n)] for an [int]. *)
Definition str_of_int (z : Z) : str := lit (NilZero.string_of_int (Z.to_int z)).

(** [sep.join(parts)] *)
Fixpoint join (sep : str) (parts : list str) : str :=
  match parts with
  | [] => []
  | [p] => p
  | p :: rest => p ++ sep ++ join sep rest
  end.

(** The values [json.loads] produces and [json.dumps] accepts: [None],
    [bool], [int], [float] (kept as its [repr], which names one double),
    [str], [list] and [dict] with string keys in insertion order. *)
Inductive value :=
| PNone
| PBool (b : bool)
| PInt (z : Z)
| PFloat (repr : str)
| PStr (s : str)
| PList (items : list value)
| PDict (items : list (str * value)).

(** [d.get(k)] on the items of a [dict]. *)
Fixpoint lookup (k : str) (items : list (str * value)) : option value :=
  match items with
  | [] => None
  | (k', v) :: rest => if str_eqb k k' then Some v else lookup k rest
  end.

(** Truth value of an optional string argument: [None] and [""] are false. *)
Definition truthy (o : option str) : bool :=
  match o with
  | Some (_ :: _) => true
  | _ => false
  end.

(** [a or b] on optional strings. *)
Definition or_ (a b : option str) : option str := if truthy a then a else b.

End Py.

(* ================================================================== *)
(** ** [hashlib.sha256] *)

Module hashlib.

Definition mask32 : Z := 0xFFFFFFFF.

Definition add32 (x y : Z) : Z := Z.land (x + y) mask32.

Definition rotr (n x : Z) : Z :=
  Z.lor (Z.shiftr x n) (Z.land (Z.shiftl x (32 - n)) mask32).

Definition Ch (x y z : Z) : Z :=
  Z.lxor (Z.land x y) (Z.land (Z.lxor x mask32) z).

Definition Maj (x y z : Z) : Z :=
  Z.lxor (Z.lxor (Z.land x y) (Z.land x z)) (Z.land y z).

Definition big_sigma0 (x : Z) : Z :=
  Z.lxor (Z.lxor (rotr 2 x) (rotr 13 x)) (rotr 22 x).

Definition big_sigma1 (x : Z) : Z :=
  Z.lxor (Z.lxor (rotr 6 x) (rotr 11 x)) (rotr 25 x).

Definition small_sigma0 (x : Z) : Z :=
  Z.lxor (Z.lxor (rotr 7 x) (rotr 18 x)) (Z.shiftr x 3).

Definition small_sigma1 (x : Z) : Z :=
  Z.lxor (Z.lxor (rotr 17 x) (rotr 19 x)) (Z.shiftr x 10).

(** The round constants (FIPS 180-4, 4.2.2). *)
Definition K256 : list Z :=
  0x428a2f98 :: 0x71374491 :: 0xb5c0fbcf :: 0xe9b5dba5 ::
  0x3956c25b :: 0x59f111f1 :: 0x923f82a4 :: 0xab1c5ed5 ::
  0xd807aa98 :: 0x12835b01 :: 0x243185be :: 0x550c7dc3 ::
  0x72be5d74 :: 0x80deb1fe :: 0x9bdc06a7 :: 0xc19bf174 ::
  0xe49b69c1 :: 0xefbe4786 :: 0x0fc19dc6 :: 0x240ca1cc ::
  0x2de92c6f :: 0x4a7484aa :: 0x5cb0a9dc :: 0x76f988da ::
  0x983e5152 :: 0xa831c66d :: 0xb00327c8 :: 0xbf597fc7 ::
  0xc6e00bf3 :: 0xd5a79147 :: 0x06ca6351 :: 0x14292967 ::
  0x27b70a85 :: 0x2e1b2138 :: 0x4d2c6dfc :: 0x53380d13 ::
  0x650a7354 :: 0x766a0abb :: 0x81c2c92e :: 0x92722c85 ::
  0xa2bfe8a1 :: 0xa81a664b :: 0xc24b8b70 :: 0xc76c51a3 ::
  0xd192e819 :: 0xd6990624 :: 0xf40e3585 :: 0x106aa070 ::
  0x19a4c116 :: 0x1e376c08 :: 0x2748774c :: 0x34b0bcb5 ::
  0x391c0cb3 :: 0x4ed8aa4a :: 0x5b9cca4f :: 0x682e6ff3 ::
  0x748f82ee :: 0x78a5636f :: 0x84c87814 :: 0x8cc70208 ::
  0x90befffa :: 0xa4506ceb :: 0xbef9a3f7 :: 0xc67178f2 :: nil.

(** The eight working variables / the chaining value. *)
Record regs := Regs { ra : Z; rb : Z; rc : Z; rd : Z; re : Z; rf : Z; rg : Z; rh : Z }.

Definition H0 : regs :=
  Regs 0x6a09e667 0xbb67ae85 0x3c6ef372 0xa54ff53a
       0x510e527f 0x9b05688c 0x1f83d9ab 0x5be0cd19.

(** One round.  [w] is the sliding window W[t..t+15] of the message
    schedule; the round uses W[t] and appends W[t+16]. *)
Definition round (st : regs * list Z) (k : Z) : regs * list Z :=
  let (r, w) := st in
  let wt := nth 0 w 0 in
  let t1 := add32 (add32 (add32 (add32 (rh r) (big_sigma1 (re r)))
                                 (Ch (re r) (rf r) (rg r))) k) wt in
  let t2 := add32 (big_sigma0 (ra r)) (Maj (ra r) (rb r) (rc r)) in
  let next := add32 (add32 (add32 (small_sigma1 (nth 14 w 0)) (nth 9 w 0))
                           (small_sigma0 (nth 1 w 0))) wt in
  (Regs (add32 t1 t2) (ra r) (rb r) (rc r) (add32 (rd r) t1) (re r) (rf r) (rg r),
   tl w ++ [next]).

Definition compress (h : regs) (block : list Z) : regs :=
  let r := fst (fold_left round K256 (h, block)) in
  Regs (add32 (ra h) (ra r)) (add32 (rb h) (rb r)) (add32 (rc h) (rc r))
       (add32 (rd h) (rd r)) (add32 (re h) (re r)) (add32 (rf h) (rf r))
       (add32 (rg h) (rg r)) (add32 (rh h) (rh r)).

(** Big-endian 32-bit words of a byte sequence whose length is a multiple of 4. *)
Fixpoint words (l : list Z) : list Z :=
  match l with
  | a :: b :: c :: d :: rest =>
      (Z.shiftl a 24 + Z.shiftl b 16 + Z.shiftl c 8 + d) :: words rest
  | _ => []
  end.

Definition be_bytes (n : nat) (x : Z) : list Z :=
  map (fun i => Z.land (Z.shiftr x (8 * Z.of_nat i)) 0xFF) (rev (seq 0 n)).

(** Padding: a 1 bit, zeros, and the bit length on 64 bits. *)
Definition pad (m : list Z) : list Z :=
  let len := Z.of_nat (length m) in
  m ++ [0x80] ++ repeat 0 (Z.to_nat ((55 - len) mod 64)) ++ be_bytes 8 (8 * len).

Fixpoint blocks (n : nat) (ws : list Z) (h : regs) : regs :=
  match n with
  | O => h
  | S n' => blocks n' (skipn 16 ws) (compress h (firstn 16 ws))
  end.

Definition sha256 (m : Py.bytes) : Py.bytes :=
  let ws := words (pad (map Py.Z_of_byte m)) in
  let h := blocks (Nat.div (length ws) 16) ws H0 in
  map Py.byte_of_Z
      (flat_map (be_bytes 4) [ra h; rb h; rc h; rd h; re h; rf h; rg h; rh h]).

End hashlib.

(* ================================================================== *)
(** ** [hmac] with [digestmod = hashlib.sha256] *)

Module hmac.

Definition block_size : nat := 64.

Definition xor_with (c : Z) (k : Py.bytes) : Py.bytes :=
  map (fun b => Py.byte_of_Z (Z.lxor (Py.Z_of_byte b) c)) k.

(** RFC 2104: a key longer than a block is hashed, then the key is padded
    with zeros to a block. *)
Definition block_key (key : Py.bytes) : Py.bytes :=
  let k := if Nat.ltb block_size (length key) then hashlib.sha256 key else key in
  k ++ repeat x00 (block_size - length k).

Definition hmac_sha256 (key msg : Py.bytes) : Py.bytes :=
  let k := block_key key in
  hashlib.sha256 (xor_with 0x5C k ++ hashlib.sha256 (xor_with 0x36 k ++ msg)).

(** The object [hmac.new] returns: the key and the message fed so far. *)
Record HMAC := { key : Py.bytes; fed : Py.bytes }.

(** [hmac.new(key, msg, hashlib.sha256)] *)
Definition new (k : Py.bytes) (msg : option Py.bytes) : HMAC :=
  {| key := k; fed := match msg with Some m => m | None => [] end |}.

(** [h.update(msg)] *)
Definition update (h : HMAC) (msg : Py.bytes) : HMAC :=
  {| key := key h; fed := fed h ++ msg |}.

(** [h.digest()] *)
Definition digest (h : HMAC) : Py.bytes := hmac_sha256 (key h) (fed h).

End hmac.

(* ================================================================== *)
(** ** [base64.b64encode] *)

Module base64.

Definition alphabet : Py.bytes :=
  Py.blit "ABCDEFGHIJKLMNOPQRSTUVWXYZabcdefghijklmnopqrstuvwxyz0123456789+/".

Definition sextet (z : Z) : byte := nth (Z.to_nat (Z.land z 0x3F)) alphabet x00.

Definition pad_char : byte := Py.byte_of_N 61.

Fixpoint b64encode (l : Py.bytes) : Py.bytes :=
  match l with
  | [] => []
  | [a] =>
      let n := Z.shiftl (Py.Z_of_byte a) 16 in
      [sextet (Z.shiftr n 18); sextet (Z.shiftr n 12); pad_char; pad_char]
  | [a; b] =>
      let n := Z.shiftl (Py.Z_of_byte a) 16 + Z.shiftl (Py.Z_of_byte b) 8 in
      [sextet (Z.shiftr n 18); sextet (Z.shiftr n 12); sextet (Z.shiftr n 6); pad_char]
  | a :: b :: c :: rest =>
      let n := Z.shiftl (Py.Z_of_byte a) 16 + Z.shiftl (Py.Z_of_byte b) 8
               + Py.Z_of_byte c in
      sextet (Z.shiftr n 18) :: sextet (Z.shiftr n 12) :: sextet (Z.shiftr n 6)
        :: sextet n :: b64encode rest
  end.

End base64.

(* ================================================================== *)
(** ** The [requests] library, as far as the client touches it *)

Module requests.

(** A [requests.Response]: the status line, the URL it answers, and what
    [response.json()] gives ([None]: it raises [JSONDecodeError]). *)
Record Response := {
  status_code : Z;
  reason : Py.str;
  resp_url : Py.str;
  json : option Py.value
}.

(** [Response.raise_for_status]: the text of the [HTTPError] it raises for
    a status in 400..599, nothing for any other status. *)
Definition raise_for_status (r : Response) : option Py.str :=
  let line (kind : string) :=
    Py.str_of_int (status_code r) ++ Py.lit kind ++ reason r
      ++ Py.lit " for url: " ++ resp_url r in
  if (400 <=? status_code r) && (status_code r <? 500) then
    Some (line " Client Error: ")
  else if (500 <=? status_code r) && (status_code r <? 600) then
    Some (line " Server Error: ")
  else None.

(** [Response.ok]: [raise_for_status] raises nothing. *)
Definition ok (r : Response) : bool :=
  match raise_for_status r with
  | Some _ => false
  | None => true
  end.

(** [Response.__bool__].  The library defines it as [return self.ok]
    ("Returns True if status_code is less than 400, False if not"), so a
    response with a status in 400..599 is false wherever Python tests its
    truth, as in [x if response else y]. *)
Definition bool_ (r : Response) : bool := ok r.

(** The headers [_request] sends.  [Signature] is a [bytes] value (what
    [base64.b64encode] returns), the others are [str]. *)
Record Headers := {
  User_Agent : Py.str;
  Authorization : Py.str;
  RequestDate : Py.str;
  Signature : Py.bytes;
  Content_Type : Py.str
}.

(** The arguments of one [requests.request] call. *)
Record Request := {
  method : Py.str;
  url : Py.str;
  headers : Headers;
  data : option Py.bytes
}.

(** The exceptions of [requests.exceptions] the client distinguishes,
    each with its [str(e)]: [ConnectionError] (and its subclasses, such as
    [ConnectTimeout] and [SSLError]), a [Timeout] that is no
    [ConnectionError] ([ReadTimeout]), and any other [RequestException]. *)
Inductive exception :=
| ConnectionError (text : Py.str)
| Timeout (text : Py.str)
| RequestException (text : Py.str).

(** What [requests.request] does: it returns a response or raises. *)
Inductive Outcome :=
| Responds (r : Response)
| Raises (e : exception).

End requests.

(* ================================================================== *)
(** ** [bloodhound/base.py] *)

Module base.

Import Py.

(** [BloodhoundAPIError]: the message, the response, and [status_code]. *)
Record BloodhoundAPIError := {
  message : str;
  response : requests.Response;
  status_code : option Z
}.

(** [BloodhoundAPIError.__init__]:
    [self.status_code = response.status_code if response else None].
    The condition is the truth value of the response object,
    [Response.__bool__], not a test against [None]. *)
Definition BloodhoundAPIError_init (message : str) (response : requests.Response)
  : BloodhoundAPIError :=
  {| message := message;
     response := response;
     status_code := if requests.bool_ response
                    then Some (requests.status_code response)
                    else None |}.

(** The exceptions that cross the client's methods: the three classes of
    base.py, the [requests] exceptions it lets through, and the built-in
    ones its expressions can raise. *)
Inductive exn :=
| BloodhoundAuthError (msg : str)
| BloodhoundConnectionError (msg : str)
| APIError (e : BloodhoundAPIError)
| RequestsError (e : requests.exception)
| UnicodeEncodeError
| TypeError
| AttributeError.

Inductive result (A : Type) :=
| Ok (a : A)
| Raise (e : exn).

Arguments Ok {A} a.
Arguments Raise {A} e.

(** What a call does to the outside. *)
Inductive Event :=
| Sent (r : requests.Request)
| Slept (seconds : Z).

(** The state threaded through every call: how often the clock was read,
    and the events so far, oldest first. *)
Record State := { ticks : nat; log : list Event }.

(** What the program's surroundings give it: the clock
    ([datetime.datetime.now().astimezone().isoformat("T")] at the n-th
    reading), [os.getenv], the network (the outcome of the n-th
    [requests.request] call), and two library renderings the client passes
    values through without looking at them: [json.dumps(v).encode("utf8")]
    ([json.dumps] escapes every non-ASCII character, so the encoding cannot
    fail) and [str(v)] of a [list] or [dict]. *)
Record World := {
  isoformat_now : nat -> str;
  getenv : str -> option str;
  network : nat -> requests.Request -> requests.Outcome;
  json_dumps_utf8 : value -> bytes;
  str_of_container : value -> str
}.

Definition M (A : Type) : Type := State -> result A * State.

Definition ret {A} (a : A) : M A := fun s => (Ok a, s).

Definition raise {A} (e : exn) : M A := fun s => (Raise e, s).

Definition bind {A B} (m : M A) (k : A -> M B) : M B :=
  fun s =>
    match m s with
    | (Ok a, s') => k a s'
    | (Raise e, s') => (Raise e, s')
    end.

(** [try: m  except Exception as e: handler e] *)
Definition try_ {A} (m : M A) (handler : exn -> M A) : M A :=
  fun s =>
    match m s with
    | (Ok a, s') => (Ok a, s')
    | (Raise e, s') => handler e s'
    end.

Declare Scope py_scope.
Delimit Scope py_scope with py.
Notation "x <- c ;; k" := (bind c (fun x => k))
  (at level 61, c at next level, right associativity) : py_scope.
Notation "c ;;; k" := (bind c (fun _ => k))
  (at level 61, right associativity) : py_scope.
Local Open Scope py_scope.

Definition is_sent (e : Event) : bool :=
  match e with Sent _ => true | Slept _ => false end.

(** The requests among the events. *)
Fixpoint sent (l : list Event) : list requests.Request :=
  match l with
  | [] => []
  | Sent r :: rest => r :: sent rest
  | Slept _ :: rest => sent rest
  end.

(** The sleeps among the events. *)
Fixpoint slept (l : list Event) : list Z :=
  match l with
  | [] => []
  | Sent _ :: rest => slept rest
  | Slept n :: rest => n :: slept rest
  end.

(** [datetime.datetime.now().astimezone().isoformat("T")] *)
Definition now (w : World) : M str :=
  fun s => (Ok (isoformat_now w (ticks s)), {| ticks := S (ticks s); log := log s |}).

(** [requests.request(...)] *)
Definition send (w : World) (r : requests.Request) : M requests.Outcome :=
  fun s => (Ok (network w (List.length (sent (log s))) r),
            {| ticks := ticks s; log := log s ++ [Sent r] |}).

(** [time.sleep(seconds)] *)
Definition sleep (seconds : Z) : M unit :=
  fun s => (Ok tt, {| ticks := ticks s; log := log s ++ [Slept seconds] |}).

(** [s.encode()] as a computation. *)
Definition encode_ (s : str) : M bytes :=
  match encode s with
  | Some b => ret b
  | None => raise UnicodeEncodeError
  end.

(** [str(v)], as an f-string renders a value. *)
Definition py_str (w : World) (v : value) : str :=
  match v with
  | PNone => lit "None"
  | PBool true => lit "True"
  | PBool false => lit "False"
  | PInt z => str_of_int z
  | PFloat r => r
  | PStr s => s
  | PList _ | PDict _ => str_of_container w v
  end.

(** [v.get(key, default)]: only a [dict] has the method. *)
Definition py_get (v : value) (key : str) (default : value) : M value :=
  match v with
  | PDict items =>
      ret (match lookup key items with Some x => x | None => default end)
  | _ => raise AttributeError
  end.

Record BloodhoundBaseClient := {
  scheme : str;
  domain : str;
  port : Z;
  token_id : str;
  token_key : str
}.

(** [if not x: raise BloodhoundAuthError(msg)], then [x] is a non-empty
    string. *)
Definition require (x : option str) (msg : string) : M str :=
  match x with
  | Some (c :: rest) => ret (c :: rest)
  | _ => raise (BloodhoundAuthError (lit msg))
  end.

(** [BloodhoundBaseClient.__init__] *)
Definition __init__ (w : World) (domain token_id token_key : option str)
    (port : Z) (scheme : str) : M BloodhoundBaseClient :=
  let self_domain := or_ domain (getenv w (lit "BLOODHOUND_DOMAIN")) in
  let self_token_id := or_ token_id (getenv w (lit "BLOODHOUND_TOKEN_ID")) in
  let self_token_key := or_ token_key (getenv w (lit "BLOODHOUND_TOKEN_KEY")) in
  d <- require self_domain
    "BloodHound domain must be provided either directly or via BLOODHOUND_DOMAIN environment variable" ;;
  i <- require self_token_id
    "API token ID must be provided either directly or via BLOODHOUND_TOKEN_ID environment variable" ;;
  k <- require self_token_key
    "API token key must be provided either directly or via BLOODHOUND_TOKEN_KEY environment variable" ;;
  ret {| scheme := scheme; domain := d; port := port; token_id := i; token_key := k |}.

(** [_format_url] *)
Definition _format_url (self : BloodhoundBaseClient) (uri : str) : str :=
  let formatted_uri := if startswith uri (lit "/") then skipn 1 uri else uri in
  scheme self ++ lit "://" ++ domain self ++ lit ":" ++ str_of_int (port self)
    ++ lit "/" ++ formatted_uri.

(** [_request]: the three-link HMAC chain, then the signed call. *)
Definition _request (w : World) (self : BloodhoundBaseClient)
    (method uri : str) (body : option bytes) : M requests.Response :=
  key <- encode_ (token_key self) ;;
  let digester := hmac.new key None in
  operation <- encode_ (method ++ uri) ;;
  let digester := hmac.update digester operation in
  let digester := hmac.new (hmac.digest digester) None in
  datetime_formatted <- now w ;;
  hour <- encode_ (slice_to 13 datetime_formatted) ;;
  let digester := hmac.update digester hour in
  let digester := hmac.new (hmac.digest digester) None in
  let digester :=
    match body with
    | Some b => hmac.update digester b
    | None => digester
    end in
  outcome <- send w
    {| requests.method := method;
       requests.url := _format_url self uri;
       requests.headers :=
         {| requests.User_Agent := lit "bloodhound-api-client 0.1";
            requests.Authorization := lit "bhesignature " ++ token_id self;
            requests.RequestDate := datetime_formatted;
            requests.Signature := base64.b64encode (hmac.digest digester);
            requests.Content_Type := lit "application/json" |};
       requests.data := body |} ;;
  match outcome with
  | requests.Responds r => ret r
  | requests.Raises (requests.ConnectionError e) =>
      raise (BloodhoundConnectionError
               (lit "Failed to connect to BloodHound API: " ++ e))
  | requests.Raises e => raise (RequestsError e)
  end.

(** The first block of [request]: [uri] with the query parameters
    appended when [params] is a non-empty dictionary. *)
Definition with_params (w : World) (uri : str)
    (params : option (list (str * value))) : str :=
  match params with
  | Some (p :: ps) =>
      let param_strings :=
        map (fun kv => fst kv ++ lit "=" ++ py_str w (snd kv)) (p :: ps) in
      uri ++ lit "?" ++ join (lit "&") param_strings
  | _ => uri
  end.

(** The second block of [request]: the body, when [data] is a non-empty
    dictionary. *)
Definition json_body (w : World) (data : option (list (str * value)))
  : option bytes :=
  match data with
  | Some (d :: ds) => Some (json_dumps_utf8 w (PDict (d :: ds)))
  | _ => None
  end.

(** [request]: query string, JSON body, signed call, decoded answer. *)
Definition request (w : World) (self : BloodhoundBaseClient)
    (method uri : str) (params data : option (list (str * value))) : M value :=
  let uri := with_params w uri params in
  let body := json_body w data in
  response <- _request w self method uri body ;;
  match requests.raise_for_status response with
  | Some e =>
      let error_msg := lit "HTTP Error: " ++ e in
      let error_msg :=
        match requests.json response with
        | Some (PDict error_data) =>
            match lookup (lit "error") error_data with
            | Some v => error_msg ++ lit " - " ++ py_str w v
            | None => error_msg
            end
        | _ => error_msg
        end in
      raise (APIError (BloodhoundAPIError_init error_msg response))
  | None =>
      match requests.json response with
      | Some v => ret v
      | None =>
          raise (APIError (BloodhoundAPIError_init (lit "Invalid JSON response") response))
      end
  end.

End base.

(* ================================================================== *)
(** ** [bloodhound/cypher.py] *)

Module cypher.

Import Py.
Import base.
Local Open Scope py_scope.

(** The ["metadata"] entry of the dictionary [run_query] returns. *)
Record Metadata := {
  status : str;
  query : str;
  has_results : bool;
  status_code : Z;
  message : option str
}.

(** The dictionary [run_query] returns. *)
Record QueryResult := {
  success : bool;
  data : value;
  metadata : Metadata
}.

(** The empty graph [{"nodes": [], "edges": []}]. *)
Definition empty_graph : value :=
  PDict [(lit "nodes", PList []); (lit "edges", PList [])].

(** [data = {"query": query, "includeproperties": include_properties}] *)
Definition payload (query : str) (include_properties : bool) : value :=
  PDict [(lit "query", PStr query);
         (lit "includeproperties", PBool include_properties)].

(** [run_query] *)
Definition run_query (w : World) (self : BloodhoundBaseClient)
    (query : str) (include_properties : bool) : M QueryResult :=
  let data := payload query include_properties in
  try_
    (response <- _request w self (lit "POST") (lit "/api/v2/graphs/cypher")
                   (Some (json_dumps_utf8 w data)) ;;
     let code := requests.status_code response in
     if code =? 200 then
       match requests.json response with
       | Some json_data =>
           d <- py_get json_data (lit "data") (PDict []) ;;
           ret {| success := true;
                  data := d;
                  metadata :=
                    {| status := lit "success_with_results";
                       query := query;
                       has_results := true;
                       status_code := 200;
                       message := None |} |}
       | None =>
           raise (APIError (BloodhoundAPIError_init
                    (lit "Invalid JSON response from Cypher query") response))
       end
     else if code =? 404 then
       ret {| success := true;
              data := empty_graph;
              metadata :=
                {| status := lit "success_no_results";
                   query := query;
                   has_results := false;
                   status_code := 404;
                   message :=
                     Some (lit "Query executed successfully but found no matching data") |} |}
     else if code =? 400 then
       error_detail <-
         match requests.json response with
         | Some error_data =>
             py_get error_data (lit "error") (PStr (lit "Unknown syntax error"))
         | None => ret (PStr (lit "Malformed Cypher query"))
         end ;;
       raise (APIError (BloodhoundAPIError_init
                (lit "Cypher query syntax error: " ++ py_str w error_detail) response))
     else if code =? 401 then
       raise (APIError (BloodhoundAPIError_init
                (lit "Authentication failed - check your BloodHound API credentials")
                response))
     else if code =? 403 then
       raise (APIError (BloodhoundAPIError_init
                (lit "Permission denied - insufficient privileges for Cypher queries")
                response))
     else if code =? 429 then
       raise (APIError (BloodhoundAPIError_init
                (lit "Rate limit exceeded - too many requests. Please wait before retrying.")
                response))
     else if code >=? 500 then
       error_detail <-
         match requests.json response with
         | Some error_data =>
             py_get error_data (lit "error") (PStr (lit "Unknown server error"))
         | None => ret (PStr (lit "HTTP " ++ str_of_int code))
         end ;;
       raise (APIError (BloodhoundAPIError_init
                (lit "BloodHound server error: " ++ py_str w error_detail) response))
     else
       raise (APIError (BloodhoundAPIError_init
                (lit "Unexpected response status: " ++ str_of_int code) response)))
    (fun e =>
       match e with
       | RequestsError (requests.ConnectionError t) =>
           raise (BloodhoundConnectionError
                    (lit "Failed to connect to BloodHound for Cypher query: " ++ t))
       | RequestsError (requests.Timeout t) =>
           raise (BloodhoundConnectionError
                    (lit "Request timeout during Cypher query: " ++ t))
       | RequestsError (requests.RequestException t) =>
           raise (BloodhoundConnectionError
                    (lit "Network error during Cypher query: " ++ t))
       | _ => raise e
       end).

(** [x in xs] for an attribute that is an [int] or [None]. *)
Definition py_in (x : option Z) (xs : list Z) : bool :=
  match x with
  | Some c => existsb (Z.eqb c) xs
  | None => false
  end.

(** [x == n]: [None == n] is [False]. *)
Definition py_eq (x : option Z) (n : Z) : bool :=
  match x with
  | Some c => c =? n
  | None => false
  end.

(** [x >= n]: [None >= n] raises [TypeError]. *)
Definition py_ge (x : option Z) (n : Z) : M bool :=
  match x with
  | Some c => ret (c >=? n)
  | None => raise TypeError
  end.

(** The [for attempt in range(max_retries + 1)] loop of
    [run_query_with_retry], [remaining] iterations from [attempt] on, and
    the [raise last_exception] after it. *)
Fixpoint retry_loop (w : World) (self : BloodhoundBaseClient) (query : str)
    (include_properties : bool) (max_retries : Z)
    (remaining : nat) (attempt : Z) (last_exception : option exn)
  : M QueryResult :=
  match remaining with
  | O =>
      match last_exception with
      | Some e => raise e
      | None => raise TypeError
      end
  | S rest =>
      try_ (run_query w self query include_properties)
        (fun e =>
           match e with
           | BloodhoundConnectionError _ =>
               if attempt <? max_retries then
                 let wait_time := 2 ^ attempt in
                 sleep wait_time ;;;
                 retry_loop w self query include_properties max_retries
                   rest (attempt + 1) (Some e)
               else raise e
           | APIError err =>
               if py_in (base.status_code err) [400; 401; 403] then raise e
               else
                 again <-
                   (if attempt <? max_retries then
                      if py_eq (base.status_code err) 429 then ret true
                      else py_ge (base.status_code err) 500
                    else ret false) ;;
                 if again then
                   let wait_time := 2 ^ attempt in
                   let wait_time :=
                     if py_eq (base.status_code err) 429
                     then Z.max wait_time 10 else wait_time in
                   sleep wait_time ;;;
                   retry_loop w self query include_properties max_retries
                     rest (attempt + 1) (Some e)
                 else raise e
           | _ => raise e
           end)
  end.

(** [run_query_with_retry] *)
Definition run_query_with_retry (w : World) (self : BloodhoundBaseClient)
    (query : str) (include_properties : bool) (max_retries : Z)
  : M QueryResult :=
  retry_loop w self query include_properties max_retries
    (Z.to_nat (max_retries + 1)) 0 None.

End cypher.

(* ================================================================== *)
(** ** Sample surroundings, for evaluating the client *)

Module Samples.

Import Py.
Import base.

Definition quote : str := [34%N].

(** [json.dumps] on values whose strings need no escape. *)
Fixpoint dumps (v : value) : str :=
  match v with
  | PNone => lit "null"
  | PBool true => lit "true"
  | PBool false => lit "false"
  | PInt z => str_of_int z
  | PFloat r => r
  | PStr s => quote ++ s ++ quote
  | PList items => lit "[" ++ join (lit ", ") (map dumps items) ++ lit "]"
  | PDict items =>
      lit "{"
        ++ join (lit ", ")
             (map (fun kv => quote ++ fst kv ++ quote ++ lit ": " ++ dumps (snd kv)) items)
        ++ lit "}"
  end.

Definition dumps_utf8 (v : value) : bytes :=
  match encode (dumps v) with Some b => b | None => [] end.

(** A world whose clock stands at one instant, with an empty environment,
    and whose network gives the n-th call the outcome [outcomes n]. *)
Definition world_at (t : str) (outcomes : nat -> requests.Outcome) : World :=
  {| isoformat_now := fun _ => t;
     getenv := fun _ => None;
     network := fun n _ => outcomes n;
     json_dumps_utf8 := dumps_utf8;
     str_of_container := dumps |}.

Definition world (outcomes : nat -> requests.Outcome) : World :=
  world_at (lit "2024-01-15T14:30:00.123456+01:00") outcomes.

Definition client : BloodhoundBaseClient :=
  {| scheme := lit "https";
     domain := lit "bh.example.io";
     port := 443;
     token_id := lit "id";
     token_key := lit "k" |}.

Definition reply (code : Z) (body : option value) : requests.Response :=
  {| requests.status_code := code;
     requests.reason := lit "";
     requests.resp_url := lit "https://bh.example.io:443/api/v2/graphs/cypher";
     requests.json := body |}.

Definition answer (code : Z) (body : option value) : requests.Outcome :=
  requests.Responds (reply code body).

(** A JSON error body [{"error": "forbidden"}]. *)
Definition forbidden : value := PDict [(lit "error", PStr (lit "forbidden"))].

Definition start : State := {| ticks := 0; log := [] |}.

End Samples.

(* ================================================================== *)
(** ** The signature as the specification words it *)

Module Spec.

(** digest1 = HMAC-SHA256(secret, operation); digest2 = HMAC-SHA256(digest1,
    hour); digest3 = HMAC-SHA256(digest2, body or nothing); the header is
    base64(digest3). *)
Definition signature (secret operation hour : Py.bytes) (body : option Py.bytes)
  : Py.bytes :=
  let digest1 := hmac.hmac_sha256 secret operation in
  let digest2 := hmac.hmac_sha256 digest1 hour in
  let digest3 :=
    hmac.hmac_sha256 digest2 (match body with Some b => b | None => [] end) in
  base64.b64encode digest3.

End Spec.

(* ================================================================== *)
(** ** Readings of the code used to state its properties *)

Module View.

Import Py base.
Local Open Scope py_scope.

(** What [_request] makes of the outcome of its [requests.request] call. *)
Definition delivered (o : requests.Outcome) : result requests.Response :=
  match o with
  | requests.Responds r => Ok r
  | requests.Raises (requests.ConnectionError e) =>
      Raise (BloodhoundConnectionError
               (lit "Failed to connect to BloodHound API: " ++ e))
  | requests.Raises e => Raise (RequestsError e)
  end.

(** The request [_request] sends at clock reading [t], given the encoded
    secret, operation and hour. *)
Definition signed (self : BloodhoundBaseClient) (method uri : str)
    (body : option bytes) (t : str) (k op hr : bytes) : requests.Request :=
  {| requests.method := method;
     requests.url := _format_url self uri;
     requests.headers :=
       {| requests.User_Agent := lit "bloodhound-api-client 0.1";
          requests.Authorization := lit "bhesignature " ++ token_id self;
          requests.RequestDate := t;
          requests.Signature := Spec.signature k op hr body;
          requests.Content_Type := lit "application/json" |};
     requests.data := body |}.

(** The signed call [run_query] makes. *)
Definition cypher_call (w : World) (self : BloodhoundBaseClient)
    (query : str) (include_properties : bool) : M requests.Response :=
  _request w self (lit "POST") (lit "/api/v2/graphs/cypher")
    (Some (json_dumps_utf8 w (cypher.payload query include_properties))).

(** The [error] field of a JSON error body, when the body is a JSON object
    that has one. *)
Definition error_field (r : requests.Response) : option value :=
  match requests.json r with
  | Some (PDict fields) => lookup (lit "error") fields
  | _ => None
  end.

(** What an [except] clause of [run_query_with_retry] decides for the
    exception of attempt number [attempt]: raise, or sleep and go on. *)
Inductive verdict :=
| Stop (e : exn)
| Again (delay : Z).

Definition verdict_of (max_retries attempt : Z) (e : exn) : verdict :=
  match e with
  | BloodhoundConnectionError _ =>
      if attempt <? max_retries then Again (2 ^ attempt) else Stop e
  | APIError err =>
      if cypher.py_in (base.status_code err) [400; 401; 403] then Stop e
      else if attempt <? max_retries then
        match base.status_code err with
        | None => Stop TypeError
        | Some code =>
            if code =? 429 then Again (Z.max (2 ^ attempt) 10)
            else if code >=? 500 then Again (2 ^ attempt)
            else Stop e
        end
      else Stop e
  | _ => Stop e
  end.

(** [time.sleep] on a state. *)
Definition after_sleep (seconds : Z) (s : State) : State :=
  {| ticks := ticks s; log := log s ++ [Slept seconds] |}.

(** The delays of a run of attempts with connection errors: 1, 2, 4, ... *)
Definition backoff (n : nat) : list Z := map (fun i => 2 ^ Z.of_nat i) (seq 0 n).

End View.

Import View.

(* ================================================================== *)
(** ** What [str.upper] and [str.strip] take from the Unicode database *)

Module unicode.

Import Py.

(** Beyond ASCII the two methods read the character database: the full
    uppercase mapping of a code point (one to three code points) and
    whether it is white space. *)
Record Database := {
  toupper_full : N -> str;
  isspace_other : N -> bool
}.

(** [c.isspace()]: in ASCII, TAB..CR, FS..US and the space. *)
Definition isspace (u : Database) (c : N) : bool :=
  if (c <? 128)%N then
    ((9 <=? c) && (c <=? 13) || (28 <=? c) && (c <=? 32))%N
  else isspace_other u c.

(** The uppercase of one code point: [a]..[z] lose 32, the rest of ASCII
    stays, anything else is mapped by the database. *)
Definition upper_char (u : Database) (c : N) : str :=
  if (c <? 128)%N then
    if ((97 <=? c) && (c <=? 122))%N then [(c - 32)%N] else [c]
  else toupper_full u c.

(** [s.upper()]: code point by code point. *)
Definition upper (u : Database) (s : str) : str := flat_map (upper_char u) s.

(** [s.lstrip()] *)
Fixpoint lstrip (u : Database) (s : str) : str :=
  match s with
  | [] => []
  | c :: rest => if isspace u c then lstrip u rest else s
  end.

(** [s.rstrip()] *)
Definition rstrip (u : Database) (s : str) : str := rev (lstrip u (rev s)).

(** [s.strip()] *)
Definition strip (u : Database) (s : str) : str := rstrip u (lstrip u s).

(** [needle in hay] on strings. *)
Fixpoint contains (hay needle : str) : bool :=
  startswith hay needle
  || match hay with
     | [] => false
     | _ :: rest => contains rest needle
     end.

End unicode.

(* ================================================================== *)
(** ** [CypherClient]: [validate_query] and the saved queries *)

Module CypherClient.

Import Py base.
Local Open Scope py_scope.

(** The ["checks"] dictionary of [validate_query]. *)
Record Checks := {
  is_empty : bool;
  has_return : bool;
  has_match : bool;
  estimated_complexity : str
}.

(** The dictionary [validate_query] returns; a warning is a string or
    [None]. *)
Record Validation := {
  valid : bool;
  checks : Checks;
  warnings : list (option str)
}.

(** [validate_query] *)
Definition validate_query (u : unicode.Database) (query : str) : Validation :=
  let basic_checks :=
    {| is_empty := match unicode.strip u query with [] => true | _ => false end;
       has_return := unicode.contains (unicode.upper u query) (lit "RETURN");
       has_match := unicode.contains (unicode.upper u query) (lit "MATCH");
       estimated_complexity :=
         if existsb (fun keyword => unicode.contains (unicode.upper u query) keyword)
              [lit "*"; lit "ALL"; lit "COLLECT"]
         then lit "high" else lit "medium" |} in
  {| valid := negb (is_empty basic_checks);
     checks := basic_checks;
     warnings :=
       [ if is_empty basic_checks then Some (lit "Query appears empty") else None;
         if str_eqb (estimated_complexity basic_checks) (lit "high")
         then Some (lit "Query may have high complexity") else None ] |}.

(** [d[key] = v] on the items of a dictionary: the value of an existing
    key is replaced where it stands, a new key goes to the end. *)
Fixpoint setitem (d : list (str * value)) (key : str) (v : value)
  : list (str * value) :=
  match d with
  | [] => [(key, v)]
  | (k, x) :: rest =>
      if str_eqb key k then (k, v) :: rest else (k, x) :: setitem rest key v
  end.

(** [if x: d[key] = x] for an optional string argument. *)
Definition set_if (d : list (str * value)) (key : string) (x : option str)
  : list (str * value) :=
  match x with
  | Some (c :: rest) => setitem d (lit key) (PStr (c :: rest))
  | _ => d
  end.

(** [list_saved_queries] *)
Definition list_saved_queries (w : World) (self : BloodhoundBaseClient)
    (skip limit : Z) (sort_by name query user_id scope : option str) : M value :=
  let params := [(lit "skip", PInt skip); (lit "limit", PInt limit)] in
  let params := set_if params "sortby" sort_by in
  let params := set_if params "name" name in
  let params := set_if params "query" query in
  let params := set_if params "userid" user_id in
  let params := set_if params "scope" scope in
  request w self (lit "GET") (lit "/api/v2/saved-queries") (Some params) None.

(** [get_saved_query] *)
Definition get_saved_query (w : World) (self : BloodhoundBaseClient)
    (query_id : Z) : M value :=
  request w self (lit "GET") (lit "/api/v2/saved-queries/" ++ str_of_int query_id)
    None None.

(** [create_saved_query] *)
Definition create_saved_query (w : World) (self : BloodhoundBaseClient)
    (name query : str) (description : option str) : M value :=
  let data := [(lit "name", PStr name); (lit "query", PStr query)] in
  let data := set_if data "description" description in
  request w self (lit "POST") (lit "/api/v2/saved-queries") None (Some data).

(** [update_saved_query] *)
Definition update_saved_query (w : World) (self : BloodhoundBaseClient)
    (query_id : Z) (name query description : option str) : M value :=
  let data := [] in
  let data := set_if data "name" name in
  let data := set_if data "query" query in
  let data := set_if data "description" description in
  request w self (lit "PUT") (lit "/api/v2/saved-queries/" ++ str_of_int query_id)
    None (Some data).

(** [delete_saved_query]: the answer is dropped, [None] is returned. *)
Definition delete_saved_query (w : World) (self : BloodhoundBaseClient)
    (query_id : Z) : M unit :=
  request w self (lit "DELETE") (lit "/api/v2/saved-queries/" ++ str_of_int query_id)
    None None ;;;
  ret tt.

(** [share_saved_query] *)
Definition share_saved_query (w : World) (self : BloodhoundBaseClient)
    (query_id : Z) (user_ids : option (list str)) (public : bool) : M value :=
  let data := [(lit "public", PBool public)] in
  let data :=
    match user_ids with
    | Some (i :: ids) => setitem data (lit "userids") (PList (map PStr (i :: ids)))
    | _ => data
    end in
  request w self (lit "PUT")
    (lit "/api/v2/saved-queries/" ++ str_of_int query_id ++ lit "/permissions")
    None (Some data).

(** [delete_saved_query_permissions] *)
Definition delete_saved_query_permissions (w : World) (self : BloodhoundBaseClient)
    (query_id : Z) (user_ids : list str) : M unit :=
  let data := [(lit "userids", PList (map PStr user_ids))] in
  request w self (lit "DELETE")
    (lit "/api/v2/saved-queries/" ++ str_of_int query_id ++ lit "/permissions")
    None (Some data) ;;;
  ret tt.

End CypherClient.

(* ================================================================== *)
(** ** [DomainClient] and [GraphClient]: the accessors with a choice in them *)

Module DomainClient.

Import Py base.
Local Open Scope py_scope.

(** What [response["data"]] can raise besides the exceptions of the
    request itself: a [KeyError] naming the key. *)
Inductive error :=
| Exn (e : exn)
| KeyError (key : str).

(** [v[key]] with a string key: the item of a [dict]; a missing key is a
    [KeyError]; any other value cannot be indexed by a string
    ([TypeError]). *)
Definition getitem (v : value) (key : str) : value + error :=
  match v with
  | PDict items =>
      match lookup key items with
      | Some x => inl x
      | None => inr (KeyError key)
      end
  | _ => inr (Exn TypeError)
  end.

(** [get_all] *)
Definition get_all (w : World) (self : BloodhoundBaseClient)
  : State -> (value + error) * State :=
  fun s =>
    match request w self (lit "GET") (lit "/api/v2/available-domains") None None s with
    | (Ok response, s') => (getitem response (lit "data"), s')
    | (Raise e, s') => (inr (Exn e), s')
    end.

(** [search_objects] *)
Definition search_objects (w : World) (self : BloodhoundBaseClient)
    (query : str) (type : option str) (limit skip : Z) : M value :=
  let params :=
    [(lit "q", PStr query); (lit "limit", PInt limit); (lit "skip", PInt skip)] in
  let params := CypherClient.set_if params "type" type in
  request w self (lit "GET") (lit "/api/v2/search") (Some params) None.

(** [get_users], the pattern of the list accessors. *)
Definition get_users (w : World) (self : BloodhoundBaseClient)
    (domain_id : str) (limit skip : Z) : M value :=
  let params :=
    [(lit "limit", PInt limit); (lit "skip", PInt skip); (lit "type", PStr (lit "list"))] in
  request w self (lit "GET") (lit "/api/v2/domains/" ++ domain_id ++ lit "/users")
    (Some params) None.

End DomainClient.

Module GraphClient.

Import Py base.

(** [get_shortest_path] *)
Definition get_shortest_path (w : World) (self : BloodhoundBaseClient)
    (start_node end_node : str) (relationship_kinds : option str) : M value :=
  let params := [(lit "start_node", PStr start_node); (lit "end_node", PStr end_node)] in
  let params := CypherClient.set_if params "relationshipkinds" relationship_kinds in
  request w self (lit "GET") (lit "/api/v2/graphs/shortest-path") (Some params) None.

End GraphClient.

(* ================================================================== *)
(** ** [bloodhound/api.py]: the two wrappers that swallow errors *)

Module BloodhoundAPI.

Import Py base.

(** A line written by [print(f"<prefix>{e}")]: the prefix and the
    exception whose [str] follows it. *)
Record Line := { prefix : str; cause : DomainClient.error }.

(** The methods below run on the client state and on standard output. *)
Definition Run (A : Type) : Type := State * list Line -> A * (State * list Line).

(** [test_connection]: [except Exception] catches whatever the request
    or the subscript raises; a line is printed and [None] returned. *)
Definition test_connection (w : World) (base_client : BloodhoundBaseClient)
  : Run value :=
  fun st =>
    let (s, out) := st in
    match request w base_client (lit "GET") (lit "/api/version") None None s with
    | (Ok response, s') =>
        match DomainClient.getitem response (lit "data") with
        | inl d => (d, (s', out))
        | inr e =>
            (PNone,
             (s', out ++ [{| prefix := lit "Connection test failed: "; cause := e |}]))
        end
    | (Raise e, s') =>
        (PNone,
         (s', out ++ [{| prefix := lit "Connection test failed: ";
                         cause := DomainClient.Exn e |}]))
    end.

(** [get_self_info] *)
Definition get_self_info (w : World) (base_client : BloodhoundBaseClient)
  : Run value :=
  fun st =>
    let (s, out) := st in
    match request w base_client (lit "GET") (lit "/api/v2/self") None None s with
    | (Ok response, s') => (response, (s', out))
    | (Raise e, s') =>
        (PNone,
         (s', out ++ [{| prefix := lit "Failed to get user info: ";
                         cause := DomainClient.Exn e |}]))
    end.

End BloodhoundAPI.

(* ================================================================== *)
(** ** Test vectors for the library models *)

Example sha256_abc :
  map Py.Z_of_byte (hashlib.sha256 (Py.blit "abc")) =
  [0xba; 0x78; 0x16; 0xbf; 0x8f; 0x01; 0xcf; 0xea; 0x41; 0x41; 0x40; 0xde;
   0x5d; 0xae; 0x22; 0x23; 0xb0; 0x03; 0x61; 0xa3; 0x96; 0x17; 0x7a; 0x9c;
   0xb4; 0x10; 0xff; 0x61; 0xf2; 0x00; 0x15; 0xad].
Proof. vm_compute. reflexivity. Qed.

(** RFC 4231, test case 2. *)
Example hmac_sha256_rfc4231_2 :
  map Py.Z_of_byte
      (hmac.hmac_sha256 (Py.blit "Jefe") (Py.blit "what do ya want for nothing?")) =
  [0x5b; 0xdc; 0xc1; 0x46; 0xbf; 0x60; 0x75; 0x4e; 0x6a; 0x04; 0x24; 0x26;
   0x08; 0x95; 0x75; 0xc7; 0x5a; 0x00; 0x3f; 0x08; 0x9d; 0x27; 0x39; 0x83;
   0x9d; 0xec; 0x58; 0xb9; 0x64; 0xec; 0x38; 0x43].
Proof. vm_compute. reflexivity. Qed.

(** RFC 4648, section 10. *)
Example b64encode_rfc4648 :
  base64.b64encode (Py.blit "foobar") = Py.blit "Zm9vYmFy" /\
  base64.b64encode (Py.blit "fooba") = Py.blit "Zm9vYmE=" /\
  base64.b64encode (Py.blit "foob") = Py.blit "Zm9vYg==".
Proof. vm_compute. repeat split. Qed.

Example encode_utf8 :
  Py.encode [0x20AC%N; 0x1F600%N; 0xE9%N; 0x41%N] =
    Some (map Py.byte_of_N
            [0xE2; 0x82; 0xAC; 0xF0; 0x9F; 0x98; 0x80; 0xC3; 0xA9; 0x41]%N) /\
  Py.encode [0xD800%N] = None.
Proof. vm_compute. split; reflexivity. Qed.

(* ================================================================== *)
(** ** [_request]: the signature chain *)

Section SignedRequest.

Import Py base.

Variable w : World.
Variable self : BloodhoundBaseClient.
Variables method uri : str.
Variable body : option bytes.

Lemma delivered_run (o : requests.Outcome) (s : State) :
  match o with
  | requests.Responds r => ret r
  | requests.Raises (requests.ConnectionError e) =>
      raise (BloodhoundConnectionError
               (lit "Failed to connect to BloodHound API: " ++ e))
  | requests.Raises e => raise (RequestsError e)
  end s = (delivered o, s).
Proof. destruct o as [r|[e|e|e]]; reflexivity. Qed.

Lemma _request_sends (s : State) (k op hr : bytes) :
  encode (token_key self) = Some k ->
  encode (method ++ uri) = Some op ->
  encode (slice_to 13 (isoformat_now w (ticks s))) = Some hr ->
  let req := signed self method uri body (isoformat_now w (ticks s)) k op hr in
  _request w self method uri body s =
    (delivered (network w (List.length (sent (log s))) req),
     {| ticks := S (ticks s); log := log s ++ [Sent req] |}).
Proof.
  intros Hk Hop Hhr.
  unfold _request, bind, encode_, now, send.
  rewrite Hk; cbn [ret]. rewrite Hop; cbn [ret ticks log]. rewrite Hhr; cbn [ret ticks log].
  rewrite delivered_run.
  unfold signed. generalize body. intros [b|]; reflexivity.
Qed.

(** When one of the three encodings fails, nothing is sent. *)
Lemma _request_encode_fails (s : State) :
  encode (token_key self) = None \/
  encode (method ++ uri) = None \/
  encode (slice_to 13 (isoformat_now w (ticks s))) = None ->
  fst (_request w self method uri body s) = Raise UnicodeEncodeError /\
  log (snd (_request w self method uri body s)) = log s.
Proof.
  intros H. unfold _request, bind, encode_, now.
  destruct (encode (token_key self)) as [k|]; cbn [ret raise]; [|auto].
  destruct (encode (method ++ uri)) as [op|]; cbn [ret raise ticks log]; [|auto].
  destruct (encode (slice_to 13 (isoformat_now w (ticks s)))) as [hr|];
    cbn [ret raise fst snd log]; [|auto].
  destruct H as [H|[H|H]]; discriminate.
Qed.

Lemma app_one_neq {A} (l : list A) (x : A) : l ++ [x] <> l.
Proof.
  intros H. apply (f_equal (@List.length A)) in H.
  rewrite length_app in H. cbn in H. lia.
Qed.

(** A request in the log means the three encodings succeeded, and names
    the request. *)
Lemma _request_sent_inv (s : State) (req : requests.Request) :
  log (snd (_request w self method uri body s)) = log s ++ [Sent req] ->
  exists k op hr,
    encode (token_key self) = Some k /\
    encode (method ++ uri) = Some op /\
    encode (slice_to 13 (isoformat_now w (ticks s))) = Some hr /\
    req = signed self method uri body (isoformat_now w (ticks s)) k op hr.
Proof.
  intros H.
  destruct (encode (token_key self)) as [k|] eqn:Hk.
  2: { destruct (_request_encode_fails s) as [_ E]; [auto|].
       rewrite E in H. symmetry in H. now apply app_one_neq in H. }
  destruct (encode (method ++ uri)) as [op|] eqn:Hop.
  2: { destruct (_request_encode_fails s) as [_ E]; [auto|].
       rewrite E in H. symmetry in H. now apply app_one_neq in H. }
  destruct (encode (slice_to 13 (isoformat_now w (ticks s)))) as [hr|] eqn:Hhr.
  2: { destruct (_request_encode_fails s) as [_ E]; [auto|].
       rewrite E in H. symmetry in H. now apply app_one_neq in H. }
  exists k, op, hr. repeat split; auto.
  rewrite (_request_sends s k op hr Hk Hop Hhr) in H. cbn [snd log] in H.
  apply app_inv_head in H. now inversion H.
Qed.

(** What [_request] can raise: an encoding error, a connection error of
    its own, or a [requests] exception it lets through. *)
Lemma _request_raises (s s' : State) (e : exn) :
  _request w self method uri body s = (Raise e, s') ->
  e = UnicodeEncodeError \/
  (exists msg, e = BloodhoundConnectionError msg) \/
  (exists x, e = RequestsError x).
Proof.
  intros H.
  destruct (encode (token_key self)) as [k|] eqn:Hk.
  2: { destruct (_request_encode_fails s) as [E _]; [auto|].
       rewrite H in E. cbn in E. left. congruence. }
  destruct (encode (method ++ uri)) as [op|] eqn:Hop.
  2: { destruct (_request_encode_fails s) as [E _]; [auto|].
       rewrite H in E. cbn in E. left. congruence. }
  destruct (encode (slice_to 13 (isoformat_now w (ticks s)))) as [hr|] eqn:Hhr.
  2: { destruct (_request_encode_fails s) as [E _]; [auto|].
       rewrite H in E. cbn in E. left. congruence. }
  rewrite (_request_sends s k op hr Hk Hop Hhr) in H.
  match type of H with
  | context [network w ?n ?r] => destruct (network w n r) as [r'|[t|t|t]]
  end; cbn [delivered] in H; inversion H; subst; eauto.
Qed.

End SignedRequest.

Import Py base.

(** C1.  A request built by [_request] with method [m], uri [p], optional
    body [b] at clock reading [t] carries the header
    [Signature = base64(digest3)], where
    digest1 = HMAC-SHA256(UTF-8 of the token key, UTF-8 of [m ++ p]),
    digest2 = HMAC-SHA256(digest1, the first 13 characters of [t]) and
    digest3 = HMAC-SHA256(digest2, [b], or the empty message without a
    body). *)
Theorem signature_is_hmac_chain
    (w : World) (self : BloodhoundBaseClient) (m p : str) (b : option bytes)
    (s : State) (secret operation hour : bytes) :
  encode (token_key self) = Some secret ->
  encode (m ++ p) = Some operation ->
  encode (slice_to 13 (isoformat_now w (ticks s))) = Some hour ->
  exists req,
    log (snd (_request w self m p b s)) = log s ++ [Sent req] /\
    let digest1 := hmac.hmac_sha256 secret operation in
    let digest2 := hmac.hmac_sha256 digest1 hour in
    let digest3 :=
      hmac.hmac_sha256 digest2 (match b with Some body => body | None => [] end) in
    requests.Signature (requests.headers req) = base64.b64encode digest3.
Proof.
  intros Hk Hop Hhr.
  exists (signed self m p b (isoformat_now w (ticks s)) secret operation hour).
  rewrite (_request_sends w self m p b s _ _ _ Hk Hop Hhr).
  split; reflexivity.
Qed.

Lemma signature_is_hmac_chain_witness :
  exists req,
    log (snd (_request (Samples.world (fun _ => Samples.answer 200 None))
                Samples.client (lit "GET") (lit "/api/version") None Samples.start))
      = log Samples.start ++ [Sent req] /\
    let digest1 := hmac.hmac_sha256 (blit "k") (blit "GET/api/version") in
    let digest2 := hmac.hmac_sha256 digest1 (blit "2024-01-15T14") in
    let digest3 := hmac.hmac_sha256 digest2 [] in
    requests.Signature (requests.headers req) = base64.b64encode digest3.
Proof.
  apply (signature_is_hmac_chain
           (Samples.world (fun _ => Samples.answer 200 None)) Samples.client
           (lit "GET") (lit "/api/version") None Samples.start
           (blit "k") (blit "GET/api/version") (blit "2024-01-15T14"));
    vm_compute; reflexivity.
Defined.

(** The header the Python client computes for the same inputs. *)
Example signature_sample :
  map requests.Signature
      (map requests.headers
         (sent (log (snd (_request (Samples.world (fun _ => Samples.answer 200 None))
                            Samples.client (lit "GET") (lit "/api/version") None
                            Samples.start)))))
  = [blit "Kv9T7+Kz6MMKv0Bz7us8DiUP93xkHAJot2qnUaMRl1A="].
Proof. vm_compute. reflexivity. Qed.

(** C6.  In a request built by [_request], the [RequestDate] header is
    the whole timestamp read from the clock for that request, and the bytes
    fed to the second HMAC stage are the first 13 characters of that very
    header. *)
Theorem request_date_is_signed_hour
    (w : World) (self : BloodhoundBaseClient) (m p : str) (b : option bytes)
    (s : State) (req : requests.Request) :
  log (snd (_request w self m p b s)) = log s ++ [Sent req] ->
  requests.RequestDate (requests.headers req) = isoformat_now w (ticks s) /\
  exists secret operation hour,
    encode (token_key self) = Some secret /\
    encode (m ++ p) = Some operation /\
    encode (slice_to 13 (requests.RequestDate (requests.headers req))) = Some hour /\
    requests.Signature (requests.headers req) =
      base64.b64encode
        (hmac.hmac_sha256
           (hmac.hmac_sha256 (hmac.hmac_sha256 secret operation) hour)
           (match b with Some body => body | None => [] end)).
Proof.
  intros H.
  destruct (_request_sent_inv w self m p b s req H)
    as (k & op & hr & Hk & Hop & Hhr & ->).
  split; [reflexivity|].
  exists k, op, hr. cbn [requests.RequestDate requests.headers signed].
  repeat split; assumption || reflexivity.
Qed.

Lemma request_date_is_signed_hour_witness :
  let req :=
    signed Samples.client (lit "GET") (lit "/api/version") None
      (lit "2024-01-15T14:30:00.123456+01:00")
      (blit "k") (blit "GET/api/version") (blit "2024-01-15T14") in
  requests.RequestDate (requests.headers req) = lit "2024-01-15T14:30:00.123456+01:00" /\
  exists secret operation hour,
    encode (token_key Samples.client) = Some secret /\
    encode (lit "GET" ++ lit "/api/version") = Some operation /\
    encode (slice_to 13 (requests.RequestDate (requests.headers req))) = Some hour /\
    requests.Signature (requests.headers req) =
      base64.b64encode
        (hmac.hmac_sha256
           (hmac.hmac_sha256 (hmac.hmac_sha256 secret operation) hour) []).
Proof.
  apply (request_date_is_signed_hour
           (Samples.world (fun _ => Samples.answer 200 None)) Samples.client
           (lit "GET") (lit "/api/version") None Samples.start).
  vm_compute. reflexivity.
Defined.

(** C7.  The signature is deterministic: two calls of [_request] on the
    same client with the same method, uri and body, whose clock readings
    agree on their first 13 characters, send the same [Signature]. *)
Theorem signature_deterministic
    (w1 w2 : World) (self : BloodhoundBaseClient) (m p : str) (b : option bytes)
    (s1 s2 : State) (req1 req2 : requests.Request) :
  log (snd (_request w1 self m p b s1)) = log s1 ++ [Sent req1] ->
  log (snd (_request w2 self m p b s2)) = log s2 ++ [Sent req2] ->
  slice_to 13 (isoformat_now w1 (ticks s1)) = slice_to 13 (isoformat_now w2 (ticks s2)) ->
  requests.Signature (requests.headers req1) = requests.Signature (requests.headers req2).
Proof.
  intros H1 H2 Hhour.
  destruct (_request_sent_inv w1 self m p b s1 req1 H1)
    as (k1 & op1 & hr1 & Hk1 & Hop1 & Hhr1 & ->).
  destruct (_request_sent_inv w2 self m p b s2 req2 H2)
    as (k2 & op2 & hr2 & Hk2 & Hop2 & Hhr2 & ->).
  rewrite Hhour in Hhr1.
  cbn [requests.Signature requests.headers signed].
  congruence.
Qed.

Lemma signature_deterministic_witness :
  requests.Signature
    (requests.headers
       (signed Samples.client (lit "GET") (lit "/api/version") None
          (lit "2024-01-15T14:30:00.123456+01:00")
          (blit "k") (blit "GET/api/version") (blit "2024-01-15T14")))
  = requests.Signature
      (requests.headers
         (signed Samples.client (lit "GET") (lit "/api/version") None
            (lit "2024-01-15T14:59:59+01:00")
            (blit "k") (blit "GET/api/version") (blit "2024-01-15T14"))).
Proof.
  apply (signature_deterministic
           (Samples.world_at (lit "2024-01-15T14:30:00.123456+01:00")
              (fun _ => Samples.answer 200 None))
           (Samples.world_at (lit "2024-01-15T14:59:59+01:00")
              (fun _ => Samples.answer 404 None))
           Samples.client (lit "GET") (lit "/api/version") None
           Samples.start Samples.start);
    vm_compute; reflexivity.
Defined.

(* ================================================================== *)
(** ** [run_query]: the status-code table *)

Section RunQuery.

Variable w : World.
Variable self : BloodhoundBaseClient.
Variable query : str.
Variable include_properties : bool.

(** [run_query] sends at most one request and never sleeps. *)
Lemma cypher_call_effects (s : State) :
  (ticks (snd (cypher_call w self query include_properties s)) <= S (ticks s))%nat /\
  (log (snd (cypher_call w self query include_properties s)) = log s \/
   exists req, log (snd (cypher_call w self query include_properties s)) = log s ++ [Sent req]).
Proof.
  unfold cypher_call.
  set (b := Some _).
  destruct (encode (token_key self)) as [k|] eqn:Hk.
  2: { unfold _request, bind, encode_. rewrite Hk. cbn. split; [lia|now left]. }
  destruct (encode (lit "POST" ++ lit "/api/v2/graphs/cypher")) as [op|] eqn:Hop.
  2: { unfold _request, bind, encode_. rewrite Hk. cbn [ret raise].
       rewrite Hop. cbn. split; [lia|now left]. }
  destruct (encode (slice_to 13 (isoformat_now w (ticks s)))) as [hr|] eqn:Hhr.
  - rewrite (_request_sends w self _ _ b s k op hr Hk Hop Hhr). cbn [snd ticks log].
    split; [lia|right; eauto].
  - unfold _request, bind, encode_, now. rewrite Hk. cbn [ret raise].
    rewrite Hop. cbn [ret raise ticks log]. rewrite Hhr. cbn. split; [lia|now left].
Qed.

(** After the signed call, [run_query] leaves the state alone: it only
    classifies the response. *)
Lemma run_query_state (s : State) :
  snd (cypher.run_query w self query include_properties s) = snd (cypher_call w self query include_properties s).
Proof.
  unfold cypher.run_query, try_, bind. fold (cypher_call w self query include_properties).
  destruct (cypher_call w self query include_properties s) as [[resp|e] s1]; cbn [snd].
  - repeat match goal with
           | |- context [if ?c then _ else _] => destruct c
           | |- context [match requests.json ?r with _ => _ end] =>
               destruct (requests.json r) as [[]|]
           end; reflexivity.
  - destruct e as [| | |[t|t|t]| | |]; reflexivity.
Qed.

Lemma sent_app (l1 l2 : list Event) : sent (l1 ++ l2) = sent l1 ++ sent l2.
Proof.
  induction l1 as [|[r|n] l1 IH]; cbn; [reflexivity| |assumption].
  now rewrite IH.
Qed.

Lemma slept_app (l1 l2 : list Event) : slept (l1 ++ l2) = slept l1 ++ slept l2.
Proof.
  induction l1 as [|[r|n] l1 IH]; cbn; [reflexivity|assumption|].
  now rewrite IH.
Qed.

(** [run_query] sends at most one request and never sleeps. *)
Lemma run_query_effects (s : State) :
  slept (log (snd (cypher.run_query w self query include_properties s))) = slept (log s) /\
  (List.length (sent (log (snd (cypher.run_query w self query include_properties s))))
   <= S (List.length (sent (log s))))%nat.
Proof.
  rewrite run_query_state.
  destruct (cypher_call_effects s) as [_ [->|[req ->]]].
  - split; [reflexivity|lia].
  - rewrite slept_app, sent_app, length_app. cbn. rewrite app_nil_r. split; [reflexivity|lia].
Qed.

End RunQuery.

(** C3.  When [run_query] receives HTTP status 404 it does not raise: it
    returns success with the empty graph [{nodes: [], edges: []}] and
    metadata that mark [has_results = false]. *)
Theorem run_query_404_is_empty_success
    (w : World) (self : BloodhoundBaseClient) (q : str) (props : bool)
    (s s' : State) (resp : requests.Response) :
  cypher_call w self q props s = (Ok resp, s') ->
  requests.status_code resp = 404 ->
  cypher.run_query w self q props s =
    (Ok {| cypher.success := true;
           cypher.data := PDict [(lit "nodes", PList []); (lit "edges", PList [])];
           cypher.metadata :=
             {| cypher.status := lit "success_no_results";
                cypher.query := q;
                cypher.has_results := false;
                cypher.status_code := 404;
                cypher.message :=
                  Some (lit "Query executed successfully but found no matching data") |} |},
     s').
Proof.
  intros Hcall Hcode.
  unfold cypher.run_query, try_, bind. unfold cypher_call in Hcall.
  rewrite Hcall, Hcode. reflexivity.
Qed.

Lemma run_query_404_is_empty_success_witness :
  exists s',
    cypher.run_query (Samples.world (fun _ => Samples.answer 404 None)) Samples.client
      (lit "MATCH (n:Nothing) RETURN n") true Samples.start =
    (Ok {| cypher.success := true;
           cypher.data := PDict [(lit "nodes", PList []); (lit "edges", PList [])];
           cypher.metadata :=
             {| cypher.status := lit "success_no_results";
                cypher.query := lit "MATCH (n:Nothing) RETURN n";
                cypher.has_results := false;
                cypher.status_code := 404;
                cypher.message :=
                  Some (lit "Query executed successfully but found no matching data") |} |},
     s').
Proof.
  eexists.
  eapply (run_query_404_is_empty_success
            (Samples.world (fun _ => Samples.answer 404 None)) Samples.client
            (lit "MATCH (n:Nothing) RETURN n") true Samples.start);
    vm_compute; reflexivity.
Defined.

(** C2, as the code has it.  When [run_query] receives HTTP status 200
    and the JSON body is an object without a [data] field, it returns
    success whose data component is the empty dictionary [{}] (the default
    of [json_data.get("data", {})]), with metadata that mark
    [has_results = true]. *)
Theorem run_query_200_without_data
    (w : World) (self : BloodhoundBaseClient) (q : str) (props : bool)
    (s s' : State) (resp : requests.Response) (fields : list (str * value)) :
  cypher_call w self q props s = (Ok resp, s') ->
  requests.status_code resp = 200 ->
  requests.json resp = Some (PDict fields) ->
  lookup (lit "data") fields = None ->
  cypher.run_query w self q props s =
    (Ok {| cypher.success := true;
           cypher.data := PDict [];
           cypher.metadata :=
             {| cypher.status := lit "success_with_results";
                cypher.query := q;
                cypher.has_results := true;
                cypher.status_code := 200;
                cypher.message := None |} |},
     s').
Proof.
  intros Hcall Hcode Hjson Hdata.
  unfold cypher.run_query, try_, bind. unfold cypher_call in Hcall.
  rewrite Hcall, Hcode. cbn [Z.eqb Pos.eqb]. rewrite Hjson.
  unfold py_get. rewrite Hdata. reflexivity.
Qed.

Lemma run_query_200_without_data_witness :
  exists s',
    cypher.run_query
      (Samples.world (fun _ => Samples.answer 200 (Some (PDict [(lit "count", PInt 0)]))))
      Samples.client (lit "MATCH (n) RETURN n") true Samples.start =
    (Ok {| cypher.success := true;
           cypher.data := PDict [];
           cypher.metadata :=
             {| cypher.status := lit "success_with_results";
                cypher.query := lit "MATCH (n) RETURN n";
                cypher.has_results := true;
                cypher.status_code := 200;
                cypher.message := None |} |},
     s').
Proof.
  eexists.
  eapply (run_query_200_without_data
            (Samples.world (fun _ => Samples.answer 200 (Some (PDict [(lit "count", PInt 0)]))))
            Samples.client (lit "MATCH (n) RETURN n") true Samples.start);
    vm_compute; reflexivity.
Defined.

(** C2, as stated, fails: on status 200 with the JSON body
    [{"count": 0}] (no [data] field), the data component is [{}], which
    is not the empty graph [{nodes: [], edges: []}]. *)
Lemma run_query_200_without_data_is_not_empty_graph :
  exists r s',
    cypher.run_query
      (Samples.world (fun _ => Samples.answer 200 (Some (PDict [(lit "count", PInt 0)]))))
      Samples.client (lit "MATCH (n) RETURN n") true Samples.start = (Ok r, s') /\
    cypher.has_results (cypher.metadata r) = true /\
    cypher.data r = PDict [] /\
    cypher.data r <> cypher.empty_graph.
Proof.
  eexists. eexists. split; [vm_compute; reflexivity|].
  cbn. repeat split. discriminate.
Qed.

(* ================================================================== *)
(** ** [BloodhoundBaseClient.__init__] *)

Lemma or_truthy_l (a b : option str) : truthy a = true -> or_ a b = a.
Proof. unfold or_. now intros ->. Qed.

Lemma or_falsy_l (a b : option str) : truthy a = false -> or_ a b = b.
Proof. unfold or_. now intros ->. Qed.

Lemma require_truthy (x : option str) (msg : string) (s : State) :
  truthy x = true -> exists v, x = Some v /\ v <> [] /\ require x msg s = (Ok v, s).
Proof.
  destruct x as [[|c v]|]; cbn; try discriminate.
  intros _. exists (c :: v). repeat split. discriminate.
Qed.

Lemma require_falsy (x : option str) (msg : string) (s : State) :
  truthy x = false -> require x msg s = (Raise (BloodhoundAuthError (lit msg)), s).
Proof. destruct x as [[|c v]|]; cbn; try discriminate; reflexivity. Qed.

(** C8.  Constructing the base client with any of domain, token id or
    token key empty or absent, the environment fallback being empty or
    absent as well, raises [BloodhoundAuthError] and leaves the log as it
    was (no network call is made); with all three arguments non-empty the
    construction succeeds and stores them unchanged. *)
Theorem init_requires_credentials
    (w : World) (domain token_id token_key : option str) (port : Z) (scheme : str)
    (s : State) :
  ((truthy domain = false /\ truthy (getenv w (lit "BLOODHOUND_DOMAIN")) = false) \/
   (truthy token_id = false /\ truthy (getenv w (lit "BLOODHOUND_TOKEN_ID")) = false) \/
   (truthy token_key = false /\ truthy (getenv w (lit "BLOODHOUND_TOKEN_KEY")) = false) ->
   exists msg,
     __init__ w domain token_id token_key port scheme s = (Raise (BloodhoundAuthError msg), s))
  /\
  (forall d i k : str,
     domain = Some d -> token_id = Some i -> token_key = Some k ->
     d <> [] -> i <> [] -> k <> [] ->
     __init__ w domain token_id token_key port scheme s =
       (Ok {| base.scheme := scheme; base.domain := d; base.port := port;
              base.token_id := i; base.token_key := k |}, s)).
Proof.
  split.
  - intros H. unfold __init__, bind.
    destruct (truthy (or_ domain (getenv w (lit "BLOODHOUND_DOMAIN")))) eqn:Td.
    2: { rewrite (require_falsy _ _ s Td). eauto. }
    destruct (require_truthy _
      "BloodHound domain must be provided either directly or via BLOODHOUND_DOMAIN environment variable"
      s Td) as (d & _ & _ & ->).
    destruct (truthy (or_ token_id (getenv w (lit "BLOODHOUND_TOKEN_ID")))) eqn:Ti.
    2: { rewrite (require_falsy _ _ s Ti). eauto. }
    destruct (require_truthy _
      "API token ID must be provided either directly or via BLOODHOUND_TOKEN_ID environment variable"
      s Ti) as (i & _ & _ & ->).
    destruct (truthy (or_ token_key (getenv w (lit "BLOODHOUND_TOKEN_KEY")))) eqn:Tk.
    2: { rewrite (require_falsy _ _ s Tk). eauto. }
    exfalso.
    destruct H as [[Ha He]|[[Ha He]|[Ha He]]].
    + rewrite (or_falsy_l _ _ Ha) in Td. congruence.
    + rewrite (or_falsy_l _ _ Ha) in Ti. congruence.
    + rewrite (or_falsy_l _ _ Ha) in Tk. congruence.
  - intros d i k -> -> -> Hd Hi Hk.
    destruct d as [|cd d]; [congruence|].
    destruct i as [|ci i]; [congruence|].
    destruct k as [|ck k]; [congruence|].
    reflexivity.
Qed.

Lemma init_requires_credentials_witness :
  (exists msg,
     __init__ (Samples.world (fun _ => Samples.answer 200 None))
       (Some (lit "bh.example.io")) (Some []) (Some (lit "k")) 443 (lit "https")
       Samples.start = (Raise (BloodhoundAuthError msg), Samples.start))
  /\
  __init__ (Samples.world (fun _ => Samples.answer 200 None))
    (Some (lit "bh.example.io")) (Some (lit "id")) (Some (lit "k")) 443 (lit "https")
    Samples.start = (Ok Samples.client, Samples.start).
Proof.
  split.
  - apply (proj1 (init_requires_credentials
                    (Samples.world (fun _ => Samples.answer 200 None))
                    (Some (lit "bh.example.io")) (Some []) (Some (lit "k"))
                    443 (lit "https") Samples.start)).
    right; left. split; reflexivity.
  - apply (proj2 (init_requires_credentials
                    (Samples.world (fun _ => Samples.answer 200 None))
                    (Some (lit "bh.example.io")) (Some (lit "id")) (Some (lit "k"))
                    443 (lit "https") Samples.start)
             (lit "bh.example.io") (lit "id") (lit "k"));
      solve [reflexivity | discriminate].
Defined.

(* ================================================================== *)
(** ** [request]: the JSON facade *)

Lemma raise_for_status_error (r : requests.Response) :
  400 <= requests.status_code r < 600 ->
  exists text, requests.raise_for_status r = Some text.
Proof.
  intros H. unfold requests.raise_for_status.
  destruct (requests.status_code r <? 500) eqn:E.
  - replace (400 <=? requests.status_code r) with true by (symmetry; apply Z.leb_le; lia).
    cbn. eauto.
  - replace (400 <=? requests.status_code r) with true by (symmetry; apply Z.leb_le; lia).
    replace (500 <=? requests.status_code r) with true
      by (symmetry; apply Z.leb_le; apply Z.ltb_ge in E; lia).
    replace (requests.status_code r <? 600) with true by (symmetry; apply Z.ltb_lt; lia).
    cbn. eauto.
Qed.

Lemma raise_for_status_none (r : requests.Response) :
  requests.status_code r < 400 \/ 600 <= requests.status_code r ->
  requests.raise_for_status r = None.
Proof.
  intros H. unfold requests.raise_for_status.
  destruct H as [H|H].
  - replace (400 <=? requests.status_code r) with false by (symmetry; apply Z.leb_gt; lia).
    replace (500 <=? requests.status_code r) with false by (symmetry; apply Z.leb_gt; lia).
    reflexivity.
  - replace (requests.status_code r <? 500) with false by (symmetry; apply Z.ltb_ge; lia).
    replace (requests.status_code r <? 600) with false by (symmetry; apply Z.ltb_ge; lia).
    rewrite !andb_false_r. reflexivity.
Qed.

(** [Response.__bool__] is false exactly on the statuses 400..599. *)
Lemma response_bool_spec (r : requests.Response) :
  requests.bool_ r = negb ((400 <=? requests.status_code r) && (requests.status_code r <? 600)).
Proof.
  unfold requests.bool_, requests.ok.
  destruct ((400 <=? requests.status_code r) && (requests.status_code r <? 600)) eqn:E.
  - apply andb_prop in E. destruct E as [E1 E2].
    apply Z.leb_le in E1. apply Z.ltb_lt in E2.
    destruct (raise_for_status_error r) as [t ->]; [lia|reflexivity].
  - rewrite raise_for_status_none; [reflexivity|].
    apply andb_false_iff in E. destruct E as [E|E].
    + apply Z.leb_gt in E. lia.
    + apply Z.ltb_ge in E. lia.
Qed.

(** C9, as the code has it.  When the response of [request] has a status
    in 400..599, [request] raises a [BloodhoundAPIError] that carries the
    response itself, with the message ["HTTP Error: <text of the HTTPError>"],
    followed by [" - <error>"] when the body is a JSON object with an
    [error] field.  For any other status (2xx included) it returns the
    JSON-decoded body when the body is valid JSON. *)
Theorem request_outcome
    (w : World) (self : BloodhoundBaseClient) (m p : str)
    (params data : option (list (str * value)))
    (s s' : State) (resp : requests.Response) :
  _request w self m (with_params w p params) (json_body w data) s = (Ok resp, s') ->
  (400 <= requests.status_code resp < 600 ->
   exists err text,
     request w self m p params data s = (Raise (APIError err), s') /\
     response err = resp /\
     requests.raise_for_status resp = Some text /\
     message err =
       match error_field resp with
       | Some v => (lit "HTTP Error: " ++ text) ++ lit " - " ++ py_str w v
       | None => lit "HTTP Error: " ++ text
       end)
  /\
  (requests.status_code resp < 400 \/ 600 <= requests.status_code resp ->
   forall v, requests.json resp = Some v ->
     request w self m p params data s = (Ok v, s')).
Proof.
  intros Hcall. split.
  - intros Hcode.
    destruct (raise_for_status_error resp Hcode) as [text Htext].
    eexists. exists text.
    unfold request, bind. rewrite Hcall, Htext.
    split; [reflexivity|]. split; [reflexivity|]. split; [reflexivity|].
    unfold error_field. cbn [message BloodhoundAPIError_init].
    destruct (requests.json resp) as [[| | | | | |fields]|]; reflexivity.
  - intros Hcode v Hjson.
    unfold request, bind.
    rewrite Hcall, (raise_for_status_none resp Hcode), Hjson. reflexivity.
Qed.

Lemma request_outcome_witness :
  let w := Samples.world (fun _ => Samples.answer 403 (Some Samples.forbidden)) in
  let resp := Samples.reply 403 (Some Samples.forbidden) in
  exists err text,
    request w Samples.client (lit "GET") (lit "/api/v2/self") None None Samples.start
      = (Raise (APIError err),
         snd (_request w Samples.client (lit "GET") (lit "/api/v2/self") None
                Samples.start)) /\
    response err = resp /\
    requests.raise_for_status resp = Some text /\
    message err = (lit "HTTP Error: " ++ text) ++ lit " - " ++ lit "forbidden".
Proof.
  intros w resp.
  refine (proj1 (request_outcome w Samples.client (lit "GET") (lit "/api/v2/self")
                   None None Samples.start
                   (snd (_request w Samples.client (lit "GET") (lit "/api/v2/self")
                           None Samples.start))
                   resp _) _).
  - vm_compute. reflexivity.
  - subst resp. cbn. lia.
Defined.

(** C9, as stated, fails: a response with status 304 (not 2xx) and the
    JSON body [{}] raises nothing; [request] returns the decoded body. *)
Lemma request_returns_on_304 :
  exists resp s',
    _request (Samples.world (fun _ => Samples.answer 304 (Some (PDict []))))
      Samples.client (lit "GET") (lit "/api/v2/self") None Samples.start = (Ok resp, s') /\
    requests.status_code resp = 304 /\
    request (Samples.world (fun _ => Samples.answer 304 (Some (PDict []))))
      Samples.client (lit "GET") (lit "/api/v2/self") None None Samples.start
      = (Ok (PDict []), s').
Proof.
  eexists. eexists. split; [vm_compute; reflexivity|].
  split; vm_compute; reflexivity.
Qed.

(* ================================================================== *)
(** ** [run_query_with_retry] *)

Section Retry.

Variable w : World.
Variable self : BloodhoundBaseClient.
Variable query : str.
Variable include_properties : bool.
Variable max_retries : Z.

(** The first iteration, when at least one attempt is made. *)
Lemma retry_starts (s : State) :
  0 <= max_retries ->
  exists rest,
    Z.to_nat (max_retries + 1) = S rest /\
    cypher.run_query_with_retry w self query include_properties max_retries s =
    cypher.retry_loop w self query include_properties max_retries (S rest) 0 None s.
Proof.
  intros H. unfold cypher.run_query_with_retry.
  destruct (Z.to_nat (max_retries + 1)) as [|rest] eqn:E; [lia|].
  exists rest. split; reflexivity.
Qed.

(** A result of [run_query] is returned as it is. *)
Lemma retry_loop_returns (rest : nat) (attempt : Z) (last : option exn)
    (s s' : State) (r : cypher.QueryResult) :
  cypher.run_query w self query include_properties s = (Ok r, s') ->
  cypher.retry_loop w self query include_properties max_retries (S rest) attempt last s
    = (Ok r, s').
Proof. intros H. cbn [cypher.retry_loop]. unfold try_. now rewrite H. Qed.

(** An exception that is neither of the two caught classes passes through. *)
Lemma retry_loop_passes (rest : nat) (attempt : Z) (last : option exn)
    (s s' : State) (e : exn) :
  cypher.run_query w self query include_properties s = (Raise e, s') ->
  (forall msg, e <> BloodhoundConnectionError msg) ->
  (forall err, e <> APIError err) ->
  cypher.retry_loop w self query include_properties max_retries (S rest) attempt last s
    = (Raise e, s').
Proof.
  intros H Hc Ha. cbn [cypher.retry_loop]. unfold try_. rewrite H.
  destruct e; try reflexivity.
  - now destruct (Hc msg).
  - now destruct (Ha e).
Qed.

(** An API error whose [status_code] is a number below 500 other than 429
    is raised again, whatever the attempt. *)
Lemma retry_loop_reraises (rest : nat) (attempt : Z) (last : option exn)
    (s s' : State) (err : BloodhoundAPIError) (code : Z) :
  cypher.run_query w self query include_properties s = (Raise (APIError err), s') ->
  base.status_code err = Some code ->
  code <> 429 -> code < 500 ->
  cypher.retry_loop w self query include_properties max_retries (S rest) attempt last s
    = (Raise (APIError err), s').
Proof.
  intros H Hcode H429 H500. cbn [cypher.retry_loop]. unfold try_. rewrite H, Hcode.
  destruct (cypher.py_in (Some code) [400; 401; 403]); [reflexivity|].
  unfold bind, cypher.py_eq, cypher.py_ge.
  replace (code =? 429) with false by (symmetry; apply Z.eqb_neq; exact H429).
  replace (code >=? 500) with false by (symmetry; rewrite Z.geb_leb; apply Z.leb_gt; lia).
  destruct (attempt <? max_retries); reflexivity.
Qed.

(** An API error without a numeric [status_code] ends the call with a
    [TypeError] as soon as another attempt would be allowed: [None >= 500]
    cannot be evaluated. *)
Lemma retry_loop_type_error (rest : nat) (attempt : Z) (last : option exn)
    (s s' : State) (err : BloodhoundAPIError) :
  cypher.run_query w self query include_properties s = (Raise (APIError err), s') ->
  base.status_code err = None ->
  cypher.retry_loop w self query include_properties max_retries (S rest) attempt last s
    = (if attempt <? max_retries then Raise TypeError else Raise (APIError err), s').
Proof.
  intros H Hcode. cbn [cypher.retry_loop]. unfold try_. rewrite H, Hcode.
  cbn [cypher.py_in cypher.py_eq cypher.py_ge]. unfold bind.
  destruct (attempt <? max_retries); reflexivity.
Qed.

End Retry.

(** C10.  A [BloodhoundAPIError] that comes out of [run_query] with a
    status code that is none of 400, 401, 403, 429 and is below 500 (the
    invalid-JSON error of a 200 response, the unexpected-status error of a
    3xx response) is raised again by [run_query_with_retry] at once: the
    state is the one [run_query] left, so nothing was slept and no further
    attempt was made. *)
Theorem retry_reraises_other_api_errors
    (w : World) (self : BloodhoundBaseClient) (q : str) (props : bool)
    (max_retries : Z) (s s' : State) (err : BloodhoundAPIError) (code : Z) :
  0 <= max_retries ->
  cypher.run_query w self q props s = (Raise (APIError err), s') ->
  base.status_code err = Some code ->
  code <> 400 -> code <> 401 -> code <> 403 -> code <> 429 -> code < 500 ->
  cypher.run_query_with_retry w self q props max_retries s = (Raise (APIError err), s') /\
  slept (log s') = slept (log s) /\
  (List.length (sent (log s')) <= S (List.length (sent (log s))))%nat.
Proof.
  intros Hmax Hrun Hcode _ _ _ H429 H500.
  destruct (retry_starts w self q props max_retries s Hmax) as (rest & _ & ->).
  split.
  - now apply (retry_loop_reraises w self q props max_retries rest 0 None s s' err code).
  - pose proof (run_query_effects w self q props s) as H.
    rewrite Hrun in H. exact H.
Qed.

Lemma retry_reraises_other_api_errors_witness :
  let w := Samples.world (fun _ => Samples.answer 200 None) in
  let q := lit "MATCH (n) RETURN n" in
  let s' := snd (cypher.run_query w Samples.client q true Samples.start) in
  cypher.run_query_with_retry w Samples.client q true 3 Samples.start =
    (Raise (APIError
              (BloodhoundAPIError_init (lit "Invalid JSON response from Cypher query")
                 (Samples.reply 200 None))), s') /\
  slept (log s') = slept (log Samples.start) /\
  (List.length (sent (log s')) <= S (List.length (sent (log Samples.start))))%nat.
Proof.
  intros w q s'.
  apply (retry_reraises_other_api_errors w Samples.client q true 3 Samples.start s'
           (BloodhoundAPIError_init (lit "Invalid JSON response from Cypher query")
              (Samples.reply 200 None)) 200);
    solve [lia | vm_compute; reflexivity].
Defined.

(** The status code an API error carries: the response's own for a status
    outside 400..599, none for a status in 400..599, where the response is
    false as a truth value. *)
Lemma api_error_status_code (msg : str) (r : requests.Response) :
  base.status_code (BloodhoundAPIError_init msg r) =
    if (400 <=? requests.status_code r) && (requests.status_code r <? 600)
    then None else Some (requests.status_code r).
Proof.
  unfold BloodhoundAPIError_init. cbn [base.status_code].
  rewrite response_bool_spec.
  destruct ((400 <=? requests.status_code r) && (requests.status_code r <? 600)); reflexivity.
Qed.

(** C4 at a failing input.  With [max_retries = 3]: a first response 429
    is not retried (one request, no sleep, and the call ends in a
    [TypeError]); a first response 401 is not retried either, but what is
    raised is a [TypeError], not the authentication error. *)
Theorem retry_on_http_error_ends_in_type_error :
  (exists req,
     cypher.run_query_with_retry (Samples.world (fun _ => Samples.answer 429 None))
       Samples.client (lit "MATCH (n) RETURN n") true 3 Samples.start
     = (Raise TypeError, {| ticks := 1; log := [Sent req] |})) /\
  (exists req,
     cypher.run_query_with_retry (Samples.world (fun _ => Samples.answer 401 None))
       Samples.client (lit "MATCH (n) RETURN n") true 3 Samples.start
     = (Raise TypeError, {| ticks := 1; log := [Sent req] |})).
Proof. split; eexists; vm_compute; reflexivity. Qed.

(** C5 at a failing input.  With [max_retries = 3], a first response 429
    (or 503) followed by a response 200 that would succeed: nothing is
    slept and the second attempt is never made. *)
Theorem no_delay_after_http_error :
  let later (first : Z) (n : nat) :=
    match n with
    | O => Samples.answer first None
    | S _ => Samples.answer 200 (Some (PDict [(lit "data", cypher.empty_graph)]))
    end in
  let run (first : Z) :=
    cypher.run_query_with_retry (Samples.world (later first)) Samples.client
      (lit "MATCH (n) RETURN n") true 3 Samples.start in
  fst (run 429) = Raise TypeError /\
  slept (log (snd (run 429))) = [] /\
  List.length (sent (log (snd (run 429)))) = 1%nat /\
  fst (run 503) = Raise TypeError /\
  slept (log (snd (run 503))) = [] /\
  List.length (sent (log (snd (run 503)))) = 1%nat.
Proof. vm_compute. repeat split. Qed.

(* ================================================================== *)
(** ** [run_query_with_retry]: the attempt budget and the delays *)

Section RetryLoop.

Variable w : World.
Variable self : BloodhoundBaseClient.
Variable query : str.
Variable include_properties : bool.
Variable max_retries : Z.

Let attempt_once := cypher.run_query w self query include_properties.
Let loop := cypher.retry_loop w self query include_properties max_retries.

(** One iteration of the loop: the attempt, then what the [except]
    clauses decide. *)
Lemma retry_loop_step (rest : nat) (attempt : Z) (last : option exn) (s : State) :
  loop (S rest) attempt last s =
  match attempt_once s with
  | (Ok r, s1) => (Ok r, s1)
  | (Raise e, s1) =>
      match verdict_of max_retries attempt e with
      | Stop e' => (Raise e', s1)
      | Again d => loop rest (attempt + 1) (Some e) (after_sleep d s1)
      end
  end.
Proof.
  subst loop attempt_once. cbn [cypher.retry_loop]. unfold try_.
  destruct (cypher.run_query w self query include_properties s) as [[r|e] s1];
    [reflexivity|].
  destruct e as [msg|msg|err|e| | |]; try reflexivity; unfold verdict_of.
  - destruct (attempt <? max_retries); reflexivity.
  - destruct (cypher.py_in (base.status_code err) [400; 401; 403]); [reflexivity|].
    unfold bind, cypher.py_eq, cypher.py_ge.
    destruct (attempt <? max_retries); [|reflexivity].
    destruct (base.status_code err) as [code|]; [|reflexivity].
    destruct (code =? 429); [reflexivity|].
    destruct (code >=? 500); reflexivity.
Qed.

(** A delay is decided only when a further attempt is allowed. *)
Lemma verdict_again_lt (attempt : Z) (e : exn) (d : Z) :
  verdict_of max_retries attempt e = Again d -> attempt < max_retries.
Proof.
  unfold verdict_of.
  destruct e as [msg|msg|err|e| | |]; try discriminate.
  - destruct (attempt <? max_retries) eqn:E; [|discriminate].
    intros _. now apply Z.ltb_lt.
  - destruct (cypher.py_in (base.status_code err) [400; 401; 403]); [discriminate|].
    destruct (attempt <? max_retries) eqn:E; [|discriminate].
    intros _. now apply Z.ltb_lt.
Qed.

(** The delay decided at attempt [attempt] is [2^attempt], or
    [max(2^attempt, 10)] after an API error with status code 429. *)
Lemma verdict_again_delay (attempt : Z) (e : exn) (d : Z) :
  verdict_of max_retries attempt e = Again d ->
  d = 2 ^ attempt \/
  (d = Z.max (2 ^ attempt) 10 /\
   exists err, e = APIError err /\ base.status_code err = Some 429).
Proof.
  unfold verdict_of.
  destruct e as [msg|msg|err|e| | |]; try discriminate.
  - destruct (attempt <? max_retries); [|discriminate].
    intros [= <-]. now left.
  - destruct (cypher.py_in (base.status_code err) [400; 401; 403]); [discriminate|].
    destruct (attempt <? max_retries); [|discriminate].
    destruct (base.status_code err) as [code|] eqn:Hcode; [|discriminate].
    destruct (code =? 429) eqn:E429.
    + intros [= <-]. right. split; [reflexivity|].
      exists err. apply Z.eqb_eq in E429. subst code. now split.
    + destruct (code >=? 500); [|discriminate].
      intros [= <-]. now left.
Qed.

(** The loop invariant [remaining = max_retries + 1 - attempt] bounds what
    the rest of the loop adds to the log: at most [remaining] requests and
    at most [remaining - 1] sleeps, the i-th of them [2^(attempt+i)] or
    [max(2^(attempt+i), 10)]. *)
Lemma retry_loop_budget (remaining : nat) :
  forall (attempt : Z) (last : option exn) (s : State),
    Z.of_nat remaining = max_retries + 1 - attempt ->
    0 <= attempt ->
    exists delays,
      slept (log (snd (loop remaining attempt last s))) = slept (log s) ++ delays /\
      (List.length delays <= pred remaining)%nat /\
      (forall i d, nth_error delays i = Some d ->
         d = 2 ^ (attempt + Z.of_nat i) \/ d = Z.max (2 ^ (attempt + Z.of_nat i)) 10) /\
      (List.length (sent (log (snd (loop remaining attempt last s))))
       <= List.length (sent (log s)) + remaining)%nat.
Proof.
  induction remaining as [|rest IH]; intros attempt last s Hinv Hpos.
  - exists []. subst loop. cbn [cypher.retry_loop].
    destruct last; cbn [snd raise]; rewrite app_nil_r;
      (split; [reflexivity|]; split; [cbn; lia|];
       split; [intros [|i] d; discriminate|lia]).
  - rewrite retry_loop_step.
    pose proof (run_query_effects w self query include_properties s) as [Hslept Hsent].
    fold attempt_once in Hslept, Hsent.
    destruct (attempt_once s) as [[r|e] s1]; cbn [snd] in *.
    + exists []. rewrite app_nil_r.
      split; [assumption|]. split; [cbn; lia|].
      split; [intros [|i] d; discriminate|lia].
    + destruct (verdict_of max_retries attempt e) as [e'|d] eqn:V; cbn [snd].
      * exists []. rewrite app_nil_r.
        split; [assumption|]. split; [cbn; lia|].
        split; [intros [|i] d; discriminate|lia].
      * pose proof (verdict_again_lt _ _ _ V) as Hlt.
        destruct (IH (attempt + 1) (Some e) (after_sleep d s1)) as
          (delays & Hd & Hlen & Hshape & Hs); [lia|lia|].
        exists (d :: delays).
        unfold after_sleep in *. cbn [log] in Hd, Hs.
        rewrite slept_app in Hd. rewrite sent_app in Hs. cbn [sent slept app] in Hd, Hs.
        rewrite app_nil_r in Hs. rewrite Hslept in Hd. rewrite <- app_assoc in Hd.
        split; [exact Hd|]. split; [cbn; lia|]. split; [|lia].
        intros [|i] d' Hnth; cbn in Hnth.
        -- injection Hnth as <-. rewrite Z.add_0_r.
           destruct (verdict_again_delay _ _ _ V) as [->|[-> _]]; auto.
        -- specialize (Hshape i d' Hnth).
           replace (attempt + Z.of_nat (S i)) with (attempt + 1 + Z.of_nat i) by lia.
           exact Hshape.
Qed.

End RetryLoop.

(** Within [run_query_with_retry] at most [max_retries + 1] requests are
    sent and at most [max_retries] delays are slept. *)
Theorem retry_attempt_budget
    (w : World) (self : BloodhoundBaseClient) (q : str) (props : bool)
    (max_retries : Z) (s : State) :
  let s' := snd (cypher.run_query_with_retry w self q props max_retries s) in
  (List.length (sent (log s')) <= List.length (sent (log s)) + Z.to_nat (max_retries + 1))%nat /\
  (List.length (slept (log s')) <= List.length (slept (log s)) + Z.to_nat max_retries)%nat.
Proof.
  unfold cypher.run_query_with_retry.
  destruct (Z_lt_ge_dec max_retries 0) as [Hneg|Hpos].
  - replace (Z.to_nat (max_retries + 1)) with O by lia. cbn. lia.
  - destruct (retry_loop_budget w self q props max_retries
                (Z.to_nat (max_retries + 1)) 0 None s) as (delays & Hd & Hlen & _ & Hs);
      [lia|lia|].
    cbv zeta. rewrite Hd, length_app. split; [exact Hs|lia].
Qed.

(** The delays [run_query_with_retry] sleeps are, in order, [2^i] for
    the delay after attempt [i], or [max(2^i, 10)]. *)
Theorem retry_delays_are_exponential
    (w : World) (self : BloodhoundBaseClient) (q : str) (props : bool)
    (max_retries : Z) (s : State) :
  exists delays,
    slept (log (snd (cypher.run_query_with_retry w self q props max_retries s)))
      = slept (log s) ++ delays /\
    forall i d, nth_error delays i = Some d ->
      d = 2 ^ Z.of_nat i \/ d = Z.max (2 ^ Z.of_nat i) 10.
Proof.
  unfold cypher.run_query_with_retry.
  destruct (Z_lt_ge_dec max_retries 0) as [Hneg|Hpos].
  - replace (Z.to_nat (max_retries + 1)) with O by lia.
    exists []. cbn. rewrite app_nil_r. split; [reflexivity|].
    intros [|i] d; discriminate.
  - destruct (retry_loop_budget w self q props max_retries
                (Z.to_nat (max_retries + 1)) 0 None s) as (delays & Hd & _ & Hshape & _);
      [lia|lia|].
    exists delays. split; [exact Hd|]. exact Hshape.
Qed.

(* ================================================================== *)
(** ** Transport failures *)

Section Unreachable.

Variable w : World.
Variable self : BloodhoundBaseClient.
Variable query : str.
Variable include_properties : bool.

Variable secret : bytes.
Hypothesis secret_encodes : encode (token_key self) = Some secret.
Hypothesis clock_encodes :
  forall n, exists hour, encode (slice_to 13 (isoformat_now w n)) = Some hour.

Lemma post_encodes :
  encode (lit "POST" ++ lit "/api/v2/graphs/cypher") = Some (blit "POST/api/v2/graphs/cypher").
Proof. reflexivity. Qed.

(** Whatever exception [requests.request] raises, [run_query] raises a
    [BloodhoundConnectionError], after the one request and without a
    sleep. *)
Lemma run_query_transport_failure (s : State) :
  (forall req, exists e, network w (List.length (sent (log s))) req = requests.Raises e) ->
  exists msg req,
    cypher.run_query w self query include_properties s =
      (Raise (BloodhoundConnectionError msg),
       {| ticks := S (ticks s); log := log s ++ [Sent req] |}).
Proof.
  intros Hnet.
  destruct (clock_encodes (ticks s)) as [hour Hhour].
  unfold cypher.run_query, try_, bind.
  rewrite (_request_sends w self _ _ _ s _ _ _ secret_encodes post_encodes Hhour).
  match goal with
  | |- context [network w ?n ?r] => destruct (Hnet r) as [e ->]
  end.
  destruct e as [t|t|t]; cbn [delivered]; do 2 eexists; reflexivity.
Qed.

Variable max_retries : Z.
Hypothesis unreachable : forall n req, exists e, network w n req = requests.Raises e.

(** With the server unreachable, the rest of the loop sleeps
    [2^attempt], [2^(attempt+1)], ... between its attempts and ends in the
    last connection error. *)
Lemma retry_loop_unreachable (rest : nat) :
  forall (attempt : Z) (last : option exn) (s : State),
    Z.of_nat (S rest) = max_retries + 1 - attempt ->
    exists msg s',
      cypher.retry_loop w self query include_properties max_retries
        (S rest) attempt last s = (Raise (BloodhoundConnectionError msg), s') /\
      slept (log s') =
        slept (log s) ++ map (fun i => 2 ^ (attempt + Z.of_nat i)) (seq 0 rest) /\
      List.length (sent (log s')) = (List.length (sent (log s)) + S rest)%nat.
Proof.
  induction rest as [|rest IH]; intros attempt last s Hinv.
  - destruct (run_query_transport_failure s (unreachable _)) as (msg & req & Hrun).
    rewrite retry_loop_step, Hrun. cbn [verdict_of].
    replace (attempt <? max_retries) with false by (symmetry; apply Z.ltb_ge; lia).
    exists msg. eexists. split; [reflexivity|]. cbn [log map seq].
    rewrite slept_app, sent_app, length_app, app_nil_r. cbn. rewrite app_nil_r.
    split; [reflexivity|lia].
  - destruct (run_query_transport_failure s (unreachable _)) as (msg & req & Hrun).
    rewrite retry_loop_step, Hrun. cbn [verdict_of].
    replace (attempt <? max_retries) with true by (symmetry; apply Z.ltb_lt; lia).
    destruct (IH (attempt + 1) (Some (BloodhoundConnectionError msg))
                (after_sleep (2 ^ attempt)
                   {| ticks := S (ticks s); log := log s ++ [Sent req] |}))
      as (msg' & s' & Hloop & Hslept & Hsent); [lia|].
    exists msg', s'. split; [exact Hloop|].
    unfold after_sleep in Hslept, Hsent. cbn [log] in Hslept, Hsent.
    rewrite !slept_app in Hslept. rewrite !sent_app, !length_app in Hsent.
    cbn [slept sent app List.length] in Hslept, Hsent. rewrite app_nil_r in Hslept.
    split; [|lia].
    rewrite Hslept, <- app_assoc. f_equal. cbn [seq map app].
    rewrite Z.add_0_r. f_equal.
    rewrite <- seq_shift, map_map. apply map_ext. intros i. f_equal. lia.
Qed.

End Unreachable.

(** While the server is unreachable, [run_query_with_retry] makes
    [max_retries + 1] requests, sleeps 1, 2, 4, ... seconds between them
    (never after the last) and raises the last
    [BloodhoundConnectionError]. *)
Theorem connection_errors_are_retried_with_backoff
    (w : World) (self : BloodhoundBaseClient) (q : str) (props : bool)
    (max_retries : Z) (s : State) (secret : bytes) :
  encode (token_key self) = Some secret ->
  (forall n, exists hour, encode (slice_to 13 (isoformat_now w n)) = Some hour) ->
  (forall n req, exists e, network w n req = requests.Raises e) ->
  0 <= max_retries ->
  exists msg s',
    cypher.run_query_with_retry w self q props max_retries s =
      (Raise (BloodhoundConnectionError msg), s') /\
    slept (log s') = slept (log s) ++ backoff (Z.to_nat max_retries) /\
    List.length (sent (log s')) = (List.length (sent (log s)) + Z.to_nat (max_retries + 1))%nat.
Proof.
  intros Hsecret Hclock Hnet Hmax.
  unfold cypher.run_query_with_retry.
  replace (Z.to_nat (max_retries + 1)) with (S (Z.to_nat max_retries)) by lia.
  destruct (retry_loop_unreachable w self q props secret Hsecret Hclock max_retries Hnet
              (Z.to_nat max_retries) 0 None s) as (msg & s' & Hloop & Hslept & Hsent);
    [lia|].
  exists msg, s'. split; [exact Hloop|]. split; [|exact Hsent].
  rewrite Hslept. reflexivity.
Qed.

Lemma connection_errors_are_retried_with_backoff_witness :
  exists msg s',
    cypher.run_query_with_retry
      (Samples.world (fun _ => requests.Raises (requests.ConnectionError (lit "refused"))))
      Samples.client (lit "MATCH (n) RETURN n") true 3 Samples.start =
      (Raise (BloodhoundConnectionError msg), s') /\
    slept (log s') = slept (log Samples.start) ++ [1; 2; 4] /\
    List.length (sent (log s')) = (List.length (sent (log Samples.start)) + 4)%nat.
Proof.
  apply (connection_errors_are_retried_with_backoff
           (Samples.world (fun _ => requests.Raises (requests.ConnectionError (lit "refused"))))
           Samples.client (lit "MATCH (n) RETURN n") true 3 Samples.start (blit "k")).
  - reflexivity.
  - intros n. eexists. vm_compute. reflexivity.
  - intros n req. eexists. reflexivity.
  - lia.
Defined.

(** A transport-level exception of any kind ([ConnectionError],
    [Timeout] or another [RequestException]) comes out of [run_query] as a
    [BloodhoundConnectionError]. *)
Theorem transport_failure_is_connection_error
    (w : World) (self : BloodhoundBaseClient) (q : str) (props : bool)
    (s : State) (secret hour : bytes) :
  encode (token_key self) = Some secret ->
  encode (slice_to 13 (isoformat_now w (ticks s))) = Some hour ->
  (forall req, exists e, network w (List.length (sent (log s))) req = requests.Raises e) ->
  exists msg, fst (cypher.run_query w self q props s) = Raise (BloodhoundConnectionError msg).
Proof.
  intros Hsecret Hhour Hnet.
  unfold cypher.run_query, try_, bind.
  rewrite (_request_sends w self _ _ _ s _ _ _ Hsecret (post_encodes) Hhour).
  match goal with
  | |- context [network w ?n ?r] => destruct (Hnet r) as [e ->]
  end.
  destruct e as [t|t|t]; cbn [delivered fst]; eexists; reflexivity.
Qed.

Lemma transport_failure_is_connection_error_witness :
  exists msg,
    fst (cypher.run_query
           (Samples.world (fun _ => requests.Raises (requests.Timeout (lit "read timed out"))))
           Samples.client (lit "MATCH (n) RETURN n") true Samples.start)
    = Raise (BloodhoundConnectionError msg).
Proof.
  apply (transport_failure_is_connection_error
           (Samples.world (fun _ => requests.Raises (requests.Timeout (lit "read timed out"))))
           Samples.client (lit "MATCH (n) RETURN n") true Samples.start
           (blit "k") (blit "2024-01-15T14")).
  - reflexivity.
  - vm_compute. reflexivity.
  - intros req. eexists. reflexivity.
Defined.

(** Every request [_request] sends carries the fixed user agent, the
    [bhesignature] authorization with the token id, the JSON content type,
    and the method, URL and body of the call. *)
Theorem request_headers
    (w : World) (self : BloodhoundBaseClient) (m p : str) (b : option bytes)
    (s : State) (req : requests.Request) :
  log (snd (_request w self m p b s)) = log s ++ [Sent req] ->
  requests.User_Agent (requests.headers req) = lit "bloodhound-api-client 0.1" /\
  requests.Authorization (requests.headers req) = lit "bhesignature " ++ token_id self /\
  requests.Content_Type (requests.headers req) = lit "application/json" /\
  requests.method req = m /\
  requests.url req = _format_url self p /\
  requests.data req = b.
Proof.
  intros H.
  destruct (_request_sent_inv w self m p b s req H) as (k & op & hr & _ & _ & _ & ->).
  repeat split.
Qed.

Lemma request_headers_witness :
  let req :=
    signed Samples.client (lit "GET") (lit "/api/version") None
      (lit "2024-01-15T14:30:00.123456+01:00")
      (blit "k") (blit "GET/api/version") (blit "2024-01-15T14") in
  requests.User_Agent (requests.headers req) = lit "bloodhound-api-client 0.1" /\
  requests.Authorization (requests.headers req) = lit "bhesignature " ++ lit "id" /\
  requests.Content_Type (requests.headers req) = lit "application/json" /\
  requests.method req = lit "GET" /\
  requests.url req = lit "https://bh.example.io:443/api/version" /\
  requests.data req = None.
Proof.
  apply (request_headers
           (Samples.world (fun _ => Samples.answer 200 None)) Samples.client
           (lit "GET") (lit "/api/version") None Samples.start).
  vm_compute. reflexivity.
Defined.

(** On HTTP status 200 with a JSON object that has a [data] field,
    [run_query] returns that field as the data of a successful result. *)
Theorem run_query_200_returns_data
    (w : World) (self : BloodhoundBaseClient) (q : str) (props : bool)
    (s s' : State) (resp : requests.Response) (fields : list (str * value))
    (graph : value) :
  cypher_call w self q props s = (Ok resp, s') ->
  requests.status_code resp = 200 ->
  requests.json resp = Some (PDict fields) ->
  lookup (lit "data") fields = Some graph ->
  exists r,
    cypher.run_query w self q props s = (Ok r, s') /\
    cypher.success r = true /\
    cypher.data r = graph /\
    cypher.has_results (cypher.metadata r) = true /\
    cypher.query (cypher.metadata r) = q.
Proof.
  intros Hcall Hcode Hjson Hdata.
  unfold cypher.run_query, try_, bind. unfold cypher_call in Hcall.
  rewrite Hcall, Hcode. cbn [Z.eqb Pos.eqb]. rewrite Hjson.
  unfold py_get. rewrite Hdata. eexists. split; [reflexivity|]. repeat split.
Qed.

Lemma run_query_200_returns_data_witness :
  let w :=
    Samples.world
      (fun _ => Samples.answer 200 (Some (PDict [(lit "data", cypher.empty_graph)]))) in
  let q := lit "MATCH (n) RETURN n" in
  exists r,
    cypher.run_query w Samples.client q true Samples.start =
      (Ok r, snd (cypher_call w Samples.client q true Samples.start)) /\
    cypher.success r = true /\
    cypher.data r = cypher.empty_graph /\
    cypher.has_results (cypher.metadata r) = true /\
    cypher.query (cypher.metadata r) = q.
Proof.
  intros w q.
  apply (run_query_200_returns_data w Samples.client q true Samples.start
           (snd (cypher_call w Samples.client q true Samples.start))
           (Samples.reply 200 (Some (PDict [(lit "data", cypher.empty_graph)])))
           [(lit "data", cypher.empty_graph)]);
    vm_compute; reflexivity.
Defined.

(** The error [run_query] raises for the statuses 401, 403 and 429 is a
    [BloodhoundAPIError] with a fixed message that carries the response. *)
Theorem run_query_fixed_errors
    (w : World) (self : BloodhoundBaseClient) (q : str) (props : bool)
    (s s' : State) (resp : requests.Response) :
  cypher_call w self q props s = (Ok resp, s') ->
  requests.status_code resp = 401 \/ requests.status_code resp = 403
    \/ requests.status_code resp = 429 ->
  exists err,
    cypher.run_query w self q props s = (Raise (APIError err), s') /\
    response err = resp /\
    message err =
      if requests.status_code resp =? 401 then
        lit "Authentication failed - check your BloodHound API credentials"
      else if requests.status_code resp =? 403 then
        lit "Permission denied - insufficient privileges for Cypher queries"
      else
        lit "Rate limit exceeded - too many requests. Please wait before retrying.".
Proof.
  intros Hcall Hcode.
  unfold cypher.run_query, try_, bind. unfold cypher_call in Hcall.
  rewrite Hcall.
  destruct Hcode as [-> | [-> | ->]]; eexists; repeat split.
Qed.

Lemma run_query_fixed_errors_witness :
  let w := Samples.world (fun _ => Samples.answer 401 None) in
  let q := lit "MATCH (n) RETURN n" in
  exists err,
    cypher.run_query w Samples.client q true Samples.start =
      (Raise (APIError err), snd (cypher_call w Samples.client q true Samples.start)) /\
    response err = Samples.reply 401 None /\
    message err = lit "Authentication failed - check your BloodHound API credentials".
Proof.
  intros w q.
  apply (run_query_fixed_errors w Samples.client q true Samples.start
           (snd (cypher_call w Samples.client q true Samples.start))
           (Samples.reply 401 None)).
  - vm_compute. reflexivity.
  - left. reflexivity.
Defined.

(** Every API error [run_query] raises was built from the response it
    received. *)
Lemma run_query_api_error_built
    (w : World) (self : BloodhoundBaseClient) (q : str) (props : bool)
    (s s' : State) (err : BloodhoundAPIError) :
  cypher.run_query w self q props s = (Raise (APIError err), s') ->
  exists msg resp, err = BloodhoundAPIError_init msg resp.
Proof.
  unfold cypher.run_query, try_, bind.
  destruct (_request w self _ _ _ s) as [[resp|e] s1] eqn:Hcall.
  - repeat match goal with
           | |- context [if ?c then _ else _] => destruct c
           | |- context [match requests.json ?r with _ => _ end] =>
               destruct (requests.json r) as [[]|]
           end; cbn; intros H; inversion H; subst; eauto.
  - destruct (_request_raises _ _ _ _ _ _ _ _ Hcall) as [-> | [[msg ->] | [x ->]]];
      [| |destruct x]; cbn; intros H; discriminate H.
Qed.

(** So its [status_code] follows the truth value of that response. *)
Lemma run_query_api_error_status
    (w : World) (self : BloodhoundBaseClient) (q : str) (props : bool)
    (s s' : State) (err : BloodhoundAPIError) :
  cypher.run_query w self q props s = (Raise (APIError err), s') ->
  base.status_code err =
    if (400 <=? requests.status_code (response err))
       && (requests.status_code (response err) <? 600)
    then None else Some (requests.status_code (response err)).
Proof.
  intros H.
  destruct (run_query_api_error_built w self q props s s' err H) as (msg & resp & ->).
  apply api_error_status_code.
Qed.

(** The general form of the failing inputs of C4 and C5: with at least
    one retry allowed, an API error for a response with a status in
    400..599 ends [run_query_with_retry] in a [TypeError], in the state the
    first attempt left. *)
Lemma retry_http_error_is_type_error
    (w : World) (self : BloodhoundBaseClient) (q : str) (props : bool)
    (max_retries : Z) (s s' : State) (err : BloodhoundAPIError) :
  1 <= max_retries ->
  cypher.run_query w self q props s = (Raise (APIError err), s') ->
  400 <= requests.status_code (response err) < 600 ->
  cypher.run_query_with_retry w self q props max_retries s = (Raise TypeError, s').
Proof.
  intros Hmax Hrun Hcode.
  destruct (retry_starts w self q props max_retries s) as (rest & _ & ->); [lia|].
  rewrite (retry_loop_type_error w self q props max_retries rest 0 None s s' err Hrun).
  - replace (0 <? max_retries) with true by (symmetry; apply Z.ltb_lt; lia). reflexivity.
  - rewrite (run_query_api_error_status w self q props s s' err Hrun).
    replace (400 <=? requests.status_code (response err)) with true
      by (symmetry; apply Z.leb_le; lia).
    replace (requests.status_code (response err) <? 600) with true
      by (symmetry; apply Z.ltb_lt; lia).
    reflexivity.
Qed.

(** [_format_url] drops one leading slash of the URI and puts scheme,
    host and port before it. *)
Theorem format_url_strips_one_slash (self : BloodhoundBaseClient) (path : str) :
  _format_url self (lit "/" ++ path) =
    scheme self ++ lit "://" ++ domain self ++ lit ":" ++ str_of_int (port self)
      ++ lit "/" ++ path.
Proof.
  unfold _format_url.
  change (startswith (lit "/" ++ path) (lit "/")) with true.
  reflexivity.
Qed.

(** A response that [raise_for_status] lets through but whose body is no
    JSON makes [request] raise a [BloodhoundAPIError] with the message
    "Invalid JSON response" that carries the response and its status code. *)
Theorem request_invalid_json
    (w : World) (self : BloodhoundBaseClient) (m p : str)
    (params data : option (list (str * value)))
    (s s' : State) (resp : requests.Response) :
  _request w self m (with_params w p params) (json_body w data) s = (Ok resp, s') ->
  requests.status_code resp < 400 \/ 600 <= requests.status_code resp ->
  requests.json resp = None ->
  exists err,
    request w self m p params data s = (Raise (APIError err), s') /\
    message err = lit "Invalid JSON response" /\
    response err = resp /\
    base.status_code err = Some (requests.status_code resp).
Proof.
  intros Hcall Hcode Hjson.
  unfold request, bind.
  rewrite Hcall, (raise_for_status_none resp Hcode), Hjson.
  eexists. split; [reflexivity|]. split; [reflexivity|]. split; [reflexivity|].
  rewrite api_error_status_code.
  destruct Hcode as [H|H].
  - replace (400 <=? requests.status_code resp) with false
      by (symmetry; apply Z.leb_gt; lia). reflexivity.
  - replace (requests.status_code resp <? 600) with false
      by (symmetry; apply Z.ltb_ge; lia). now rewrite andb_false_r.
Qed.

Lemma request_invalid_json_witness :
  let w := Samples.world (fun _ => Samples.answer 200 None) in
  exists err,
    request w Samples.client (lit "GET") (lit "/api/version") None None Samples.start =
      (Raise (APIError err),
       snd (_request w Samples.client (lit "GET") (lit "/api/version") None Samples.start)) /\
    message err = lit "Invalid JSON response" /\
    response err = Samples.reply 200 None /\
    base.status_code err = Some 200.
Proof.
  intros w.
  apply (request_invalid_json w Samples.client (lit "GET") (lit "/api/version") None None
           Samples.start
           (snd (_request w Samples.client (lit "GET") (lit "/api/version") None
                   Samples.start))
           (Samples.reply 200 None)).
  - vm_compute. reflexivity.
  - left. cbn. lia.
  - reflexivity.
Defined.

(** A result of the first attempt is returned as it is: no sleep, no
    second attempt. *)
Theorem retry_returns_first_success
    (w : World) (self : BloodhoundBaseClient) (q : str) (props : bool)
    (max_retries : Z) (s s' : State) (r : cypher.QueryResult) :
  0 <= max_retries ->
  cypher.run_query w self q props s = (Ok r, s') ->
  cypher.run_query_with_retry w self q props max_retries s = (Ok r, s').
Proof.
  intros Hmax Hrun.
  destruct (retry_starts w self q props max_retries s Hmax) as (rest & _ & ->).
  now apply retry_loop_returns.
Qed.

Lemma retry_returns_first_success_witness :
  let w := Samples.world (fun _ => Samples.answer 404 None) in
  let q := lit "MATCH (n:Nothing) RETURN n" in
  let r :=
    {| cypher.success := true;
       cypher.data := cypher.empty_graph;
       cypher.metadata :=
         {| cypher.status := lit "success_no_results";
            cypher.query := q;
            cypher.has_results := false;
            cypher.status_code := 404;
            cypher.message :=
              Some (lit "Query executed successfully but found no matching data") |} |} in
  cypher.run_query_with_retry w Samples.client q true 3 Samples.start =
    (Ok r, snd (cypher.run_query w Samples.client q true Samples.start)).
Proof.
  intros w q r.
  apply (retry_returns_first_success w Samples.client q true 3 Samples.start);
    [lia|vm_compute; reflexivity].
Defined.

(* ================================================================== *)
(** ** [request]: what it does to the outside *)

Section Facade.

Variable w : World.
Variable self : BloodhoundBaseClient.
Variables method uri : str.
Variables params data : option (list (str * value)).

(** [_request] adds at most the one request to the log. *)
Lemma _request_log (body : option bytes) (s : State) :
  log (snd (_request w self method uri body s)) = log s \/
  exists req, log (snd (_request w self method uri body s)) = log s ++ [Sent req].
Proof.
  destruct (encode (token_key self)) as [k|] eqn:Hk.
  2: { left. apply _request_encode_fails; auto. }
  destruct (encode (method ++ uri)) as [op|] eqn:Hop.
  2: { left. apply _request_encode_fails; auto. }
  destruct (encode (slice_to 13 (isoformat_now w (ticks s)))) as [hr|] eqn:Hhr.
  2: { left. apply _request_encode_fails; auto. }
  right. rewrite (_request_sends w self method uri body s k op hr Hk Hop Hhr).
  cbn [snd log]. eauto.
Qed.

(** After the signed call, [request] leaves the state alone. *)
Lemma request_state (s : State) :
  snd (request w self method uri params data s) =
  snd (_request w self method (with_params w uri params) (json_body w data) s).
Proof.
  unfold request, bind.
  destruct (_request w self method (with_params w uri params) (json_body w data) s)
    as [[resp|e] s1]; cbn [snd]; [|reflexivity].
  destruct (requests.raise_for_status resp); [reflexivity|].
  destruct (requests.json resp); reflexivity.
Qed.

End Facade.

(** [request] makes one signed call and nothing else: it adds at most
    one request to the log and never sleeps, whatever the response. *)
Theorem request_sends_at_most_once
    (w : World) (self : BloodhoundBaseClient) (m p : str)
    (params data : option (list (str * value))) (s : State) :
  let s' := snd (request w self m p params data s) in
  slept (log s') = slept (log s) /\
  (log s' = log s \/ exists req, log s' = log s ++ [Sent req]).
Proof.
  cbv zeta. rewrite request_state.
  destruct (_request_log w self m (with_params w p params) (json_body w data) s)
    as [H|[req H]]; rewrite H.
  - split; [reflexivity|now left].
  - split; [|right; eauto].
    rewrite slept_app. cbn. now rewrite app_nil_r.
Qed.

(** The request [request] sends is signed over the path with its query
    string and over the JSON body: the first link of the chain is fed the
    method followed by [uri?k1=v1&...], the last link the encoded body,
    and both are what goes on the wire. *)
Theorem request_signs_query_string_and_body
    (w : World) (self : BloodhoundBaseClient) (m p : str)
    (params data : option (list (str * value))) (s : State) (req : requests.Request) :
  log (snd (request w self m p params data s)) = log s ++ [Sent req] ->
  requests.url req = _format_url self (with_params w p params) /\
  requests.data req = json_body w data /\
  exists secret operation hour,
    encode (token_key self) = Some secret /\
    encode (m ++ with_params w p params) = Some operation /\
    encode (slice_to 13 (isoformat_now w (ticks s))) = Some hour /\
    requests.Signature (requests.headers req) =
      Spec.signature secret operation hour (json_body w data).
Proof.
  rewrite request_state. intros H.
  destruct (_request_sent_inv w self m _ _ s req H) as (k & op & hr & Hk & Hop & Hhr & ->).
  split; [reflexivity|]. split; [reflexivity|].
  exists k, op, hr. repeat split; assumption.
Qed.

Lemma request_signs_query_string_and_body_witness :
  let w := Samples.world (fun _ => Samples.answer 200 (Some (PDict []))) in
  let params := Some [(lit "limit", PInt 10); (lit "type", PStr (lit "list"))] in
  let req :=
    signed Samples.client (lit "GET") (lit "/api/v2/users/7/sessions?limit=10&type=list")
      None (lit "2024-01-15T14:30:00.123456+01:00")
      (blit "k") (blit "GET/api/v2/users/7/sessions?limit=10&type=list")
      (blit "2024-01-15T14") in
  requests.url req =
    _format_url Samples.client (with_params w (lit "/api/v2/users/7/sessions") params) /\
  requests.data req = json_body w None /\
  exists secret operation hour,
    encode (token_key Samples.client) = Some secret /\
    encode (lit "GET" ++ with_params w (lit "/api/v2/users/7/sessions") params)
      = Some operation /\
    encode (slice_to 13 (isoformat_now w (ticks Samples.start))) = Some hour /\
    requests.Signature (requests.headers req) =
      Spec.signature secret operation hour (json_body w None).
Proof.
  intros w params req.
  apply (request_signs_query_string_and_body w Samples.client (lit "GET")
           (lit "/api/v2/users/7/sessions") params None Samples.start req).
  vm_compute. reflexivity.
Defined.

(** A transport failure of [request]: a [ConnectionError] of the
    library comes out as [BloodhoundConnectionError] with the library's
    text after "Failed to connect to BloodHound API: "; a [Timeout] or any
    other [RequestException] comes out as it is, unconverted. *)
Theorem request_transport_failure
    (w : World) (self : BloodhoundBaseClient) (m p : str)
    (params data : option (list (str * value))) (s : State)
    (secret operation hour : bytes) (e : requests.exception) :
  encode (token_key self) = Some secret ->
  encode (m ++ with_params w p params) = Some operation ->
  encode (slice_to 13 (isoformat_now w (ticks s))) = Some hour ->
  (forall req, network w (List.length (sent (log s))) req = requests.Raises e) ->
  fst (request w self m p params data s) =
    match e with
    | requests.ConnectionError text =>
        Raise (BloodhoundConnectionError
                 (lit "Failed to connect to BloodHound API: " ++ text))
    | _ => Raise (RequestsError e)
    end.
Proof.
  intros Hk Hop Hhr Hnet.
  unfold request, bind.
  rewrite (_request_sends w self m _ _ s secret operation hour Hk Hop Hhr).
  rewrite Hnet. destruct e; reflexivity.
Qed.

Lemma request_transport_failure_witness :
  fst (request
         (Samples.world (fun _ => requests.Raises (requests.Timeout (lit "read timed out"))))
         Samples.client (lit "GET") (lit "/api/version") None None Samples.start)
  = Raise (RequestsError (requests.Timeout (lit "read timed out"))).
Proof.
  apply (request_transport_failure
           (Samples.world (fun _ => requests.Raises (requests.Timeout (lit "read timed out"))))
           Samples.client (lit "GET") (lit "/api/version") None None Samples.start
           (blit "k") (blit "GET/api/version") (blit "2024-01-15T14")
           (requests.Timeout (lit "read timed out")));
    solve [vm_compute; reflexivity | intros req; reflexivity].
Defined.

(* ================================================================== *)
(** ** The size of the signature *)

Lemma sha256_length (m : bytes) : List.length (hashlib.sha256 m) = 32%nat.
Proof.
  unfold hashlib.sha256. rewrite length_map.
  set (h := hashlib.blocks _ _ _). reflexivity.
Qed.

Lemma hmac_sha256_length (k m : bytes) : List.length (hmac.hmac_sha256 k m) = 32%nat.
Proof. unfold hmac.hmac_sha256. apply sha256_length. Qed.

(** [b64encode] writes four characters for every three bytes, the last
    group padded. *)
Lemma b64encode_length (l : bytes) :
  List.length (base64.b64encode l) = (4 * ((List.length l + 2) / 3))%nat.
Proof.
  enough (H : forall n (l : bytes), (List.length l <= n)%nat ->
            List.length (base64.b64encode l) = (4 * ((List.length l + 2) / 3))%nat)
    by (apply (H (List.length l)); lia).
  clear l. induction n as [|n IH]; intros l Hl.
  - destruct l; [reflexivity|cbn in Hl; lia].
  - destruct l as [|a [|b [|c rest]]]; try reflexivity.
    cbn [base64.b64encode List.length].
    rewrite IH by (cbn in Hl; lia).
    replace (S (S (S (List.length rest))) + 2)%nat
      with ((List.length rest + 2) + 1 * 3)%nat by lia.
    rewrite Nat.div_add by lia. lia.
Qed.

(** The [Signature] header of every request [_request] sends is 44 bytes
    long: the base64 of a 32-byte digest, whatever the key, the path, the
    time and the body. *)
Theorem signature_has_44_bytes
    (w : World) (self : BloodhoundBaseClient) (m p : str) (b : option bytes)
    (s : State) (req : requests.Request) :
  log (snd (_request w self m p b s)) = log s ++ [Sent req] ->
  List.length (requests.Signature (requests.headers req)) = 44%nat.
Proof.
  intros H.
  destruct (_request_sent_inv w self m p b s req H) as (k & op & hr & _ & _ & _ & ->).
  cbn [requests.Signature requests.headers signed]. unfold Spec.signature.
  rewrite b64encode_length, hmac_sha256_length. reflexivity.
Qed.

Lemma signature_has_44_bytes_witness :
  List.length
    (requests.Signature
       (requests.headers
          (signed Samples.client (lit "GET") (lit "/api/version") None
             (lit "2024-01-15T14:30:00.123456+01:00")
             (blit "k") (blit "GET/api/version") (blit "2024-01-15T14")))) = 44%nat.
Proof.
  apply (signature_has_44_bytes
           (Samples.world (fun _ => Samples.answer 200 None)) Samples.client
           (lit "GET") (lit "/api/version") None Samples.start).
  vm_compute. reflexivity.
Defined.

(* ================================================================== *)
(** ** [run_query]: when it returns *)

(** [run_query] returns a result exactly when the status is 404, or the
    status is 200 and the body is a JSON object; for every other response
    it raises. *)
Theorem run_query_succeeds_iff
    (w : World) (self : BloodhoundBaseClient) (q : str) (props : bool)
    (s s' : State) (resp : requests.Response) :
  cypher_call w self q props s = (Ok resp, s') ->
  ((exists r, cypher.run_query w self q props s = (Ok r, s')) <->
   (requests.status_code resp = 404 \/
    (requests.status_code resp = 200 /\
     exists fields, requests.json resp = Some (PDict fields)))).
Proof.
  intros Hcall. unfold cypher.run_query, try_, bind.
  unfold cypher_call in Hcall. rewrite Hcall.
  destruct (Z.eqb_spec (requests.status_code resp) 200) as [E200|N200].
  - split.
    + intros [r Hr]. right. split; [assumption|].
      destruct (requests.json resp) as [[| | | | | |fields]|];
        try (cbn in Hr; discriminate Hr).
      exists fields. reflexivity.
    + intros [E|[_ [fields Hf]]]; [lia|]. rewrite Hf. cbn. eexists. reflexivity.
  - destruct (Z.eqb_spec (requests.status_code resp) 404) as [E404|N404].
    + split; [intros _; left; assumption|]. intros _. cbn. eexists. reflexivity.
    + split.
      * intros [r Hr]. exfalso.
        repeat match type of Hr with
               | context [if ?c then _ else _] => destruct c
               | context [match requests.json ?x with _ => _ end] =>
                   destruct (requests.json x) as [[]|]
               end; cbn in Hr; discriminate Hr.
      * intros [E|[E _]]; contradiction.
Qed.

Lemma run_query_succeeds_iff_witness :
  let w := Samples.world (fun _ => Samples.answer 200 (Some (PList []))) in
  let q := lit "MATCH (n) RETURN n" in
  (exists r,
     cypher.run_query w Samples.client q true Samples.start =
       (Ok r, snd (cypher_call w Samples.client q true Samples.start))) <->
  (requests.status_code (Samples.reply 200 (Some (PList []))) = 404 \/
   (requests.status_code (Samples.reply 200 (Some (PList []))) = 200 /\
    exists fields, requests.json (Samples.reply 200 (Some (PList []))) = Some (PDict fields))).
Proof.
  intros w q.
  apply (run_query_succeeds_iff w Samples.client q true Samples.start).
  vm_compute. reflexivity.
Defined.

(** A body that is JSON but no object (a list, a string, a number,
    [null]) on a status whose branch reads a field (200, 400, 500 and
    above) makes [run_query] raise [AttributeError]; no [except] clause of
    [run_query_with_retry] catches it, so it leaves the retry loop at
    once. *)
Theorem non_object_body_raises_attribute_error
    (w : World) (self : BloodhoundBaseClient) (q : str) (props : bool)
    (max_retries : Z) (s s' : State) (resp : requests.Response) (v : value) :
  cypher_call w self q props s = (Ok resp, s') ->
  requests.status_code resp = 200 \/ requests.status_code resp = 400
    \/ 500 <= requests.status_code resp ->
  requests.json resp = Some v ->
  (forall fields, v <> PDict fields) ->
  0 <= max_retries ->
  cypher.run_query w self q props s = (Raise AttributeError, s') /\
  cypher.run_query_with_retry w self q props max_retries s = (Raise AttributeError, s').
Proof.
  intros Hcall Hcode Hjson Hv Hmax.
  assert (Hrun : cypher.run_query w self q props s = (Raise AttributeError, s')).
  { unfold cypher.run_query, try_, bind. unfold cypher_call in Hcall.
    rewrite Hcall, Hjson.
    assert (Hget : forall k d st, py_get v k d st = (Raise AttributeError, st)).
    { intros k d st. destruct v; try reflexivity. now destruct (Hv items). }
    destruct Hcode as [E | [E | E]].
    - rewrite E. cbn [Z.eqb Pos.eqb]. now rewrite Hget.
    - rewrite E. cbn [Z.eqb Pos.eqb]. now rewrite Hget.
    - replace (requests.status_code resp =? 200) with false
        by (symmetry; apply Z.eqb_neq; lia).
      replace (requests.status_code resp =? 404) with false
        by (symmetry; apply Z.eqb_neq; lia).
      replace (requests.status_code resp =? 400) with false
        by (symmetry; apply Z.eqb_neq; lia).
      replace (requests.status_code resp =? 401) with false
        by (symmetry; apply Z.eqb_neq; lia).
      replace (requests.status_code resp =? 403) with false
        by (symmetry; apply Z.eqb_neq; lia).
      replace (requests.status_code resp =? 429) with false
        by (symmetry; apply Z.eqb_neq; lia).
      replace (requests.status_code resp >=? 500) with true
        by (symmetry; rewrite Z.geb_leb; apply Z.leb_le; lia).
      now rewrite Hget. }
  split; [exact Hrun|].
  destruct (retry_starts w self q props max_retries s Hmax) as (rest & _ & ->).
  apply retry_loop_passes; [exact Hrun| |]; discriminate.
Qed.

Lemma non_object_body_raises_attribute_error_witness :
  let w := Samples.world (fun _ => Samples.answer 200 (Some (PList []))) in
  let q := lit "MATCH (n) RETURN n" in
  let s' := snd (cypher_call w Samples.client q true Samples.start) in
  cypher.run_query w Samples.client q true Samples.start = (Raise AttributeError, s') /\
  cypher.run_query_with_retry w Samples.client q true 3 Samples.start
    = (Raise AttributeError, s').
Proof.
  intros w q s'.
  apply (non_object_body_raises_attribute_error w Samples.client q true 3 Samples.start s'
           (Samples.reply 200 (Some (PList []))) (PList [])).
  - vm_compute. reflexivity.
  - left. reflexivity.
  - reflexivity.
  - discriminate.
  - lia.
Defined.

(** With a negative [max_retries] the loop body never runs:
    [run_query_with_retry] makes no request and ends in the [TypeError] of
    [raise last_exception], [last_exception] still being [None]. *)
Theorem negative_max_retries_raises_type_error
    (w : World) (self : BloodhoundBaseClient) (q : str) (props : bool)
    (max_retries : Z) (s : State) :
  max_retries < 0 ->
  cypher.run_query_with_retry w self q props max_retries s = (Raise TypeError, s).
Proof.
  intros H. unfold cypher.run_query_with_retry.
  replace (Z.to_nat (max_retries + 1)) with O by lia. reflexivity.
Qed.

Lemma negative_max_retries_raises_type_error_witness :
  cypher.run_query_with_retry (Samples.world (fun _ => Samples.answer 200 None))
    Samples.client (lit "MATCH (n) RETURN n") true (-1) Samples.start
  = (Raise TypeError, Samples.start).
Proof.
  apply (negative_max_retries_raises_type_error
           (Samples.world (fun _ => Samples.answer 200 None)) Samples.client
           (lit "MATCH (n) RETURN n") true (-1) Samples.start).
  lia.
Defined.

(* ================================================================== *)
(** ** [validate_query] *)

Section Validate.

Variable u : unicode.Database.

Lemma lstrip_nil_iff (s : str) :
  unicode.lstrip u s = [] <-> forallb (unicode.isspace u) s = true.
Proof.
  induction s as [|c s IH]; cbn; [tauto|].
  destruct (unicode.isspace u c); cbn; [exact IH|].
  split; discriminate.
Qed.

Lemma lstrip_keeps_nonspace (s : str) :
  forallb (unicode.isspace u) (unicode.lstrip u s) = forallb (unicode.isspace u) s.
Proof.
  induction s as [|c s IH]; cbn; [reflexivity|].
  destruct (unicode.isspace u c) eqn:E; cbn; [exact IH|].
  now rewrite E.
Qed.

Lemma forallb_rev {A} (f : A -> bool) (l : list A) : forallb f (rev l) = forallb f l.
Proof.
  induction l as [|a l IH]; cbn; [reflexivity|].
  rewrite forallb_app, IH. cbn. rewrite andb_true_r. apply andb_comm.
Qed.

(** [s.strip()] is empty exactly when every character of [s] is white
    space. *)
Lemma strip_nil_iff (s : str) :
  unicode.strip u s = [] <-> forallb (unicode.isspace u) s = true.
Proof.
  unfold unicode.strip, unicode.rstrip.
  rewrite <- (lstrip_keeps_nonspace s), <- (forallb_rev _ (unicode.lstrip u s)).
  rewrite <- lstrip_nil_iff.
  split; intros H.
  - apply (f_equal (@rev N)) in H. now rewrite rev_involutive in H.
  - now rewrite H.
Qed.

Lemma upper_app (a b : str) :
  unicode.upper u (a ++ b) = unicode.upper u a ++ unicode.upper u b.
Proof. apply flat_map_app. Qed.

Lemma startswith_app (k rest : str) : startswith (k ++ rest) k = true.
Proof.
  induction k as [|c k IH]; cbn; [reflexivity|].
  now rewrite N.eqb_refl, IH.
Qed.

Lemma contains_here (k rest : str) : unicode.contains (k ++ rest) k = true.
Proof.
  destruct (k ++ rest) eqn:E; cbn; rewrite <- E, startswith_app; reflexivity.
Qed.

Lemma contains_later (before hay k : str) :
  unicode.contains hay k = true -> unicode.contains (before ++ hay) k = true.
Proof.
  intros H. induction before as [|c before IH]; cbn [app]; [exact H|].
  cbn [unicode.contains]. rewrite IH. apply orb_true_r.
Qed.

Lemma contains_middle (before k after : str) :
  unicode.contains (before ++ k ++ after) k = true.
Proof. apply contains_later, contains_here. Qed.

End Validate.

(** [validate_query] calls a query valid exactly when it has a character
    that is not white space, whatever else it holds; the first warning is
    "Query appears empty" exactly when the query is not valid. *)
Theorem validate_query_valid_iff_not_blank (u : unicode.Database) (q : str) :
  (CypherClient.valid (CypherClient.validate_query u q) = true <->
   exists c, In c q /\ unicode.isspace u c = false) /\
  nth_error (CypherClient.warnings (CypherClient.validate_query u q)) 0 =
    Some (if CypherClient.valid (CypherClient.validate_query u q)
          then None else Some (lit "Query appears empty")).
Proof.
  unfold CypherClient.validate_query.
  cbn [CypherClient.valid CypherClient.warnings CypherClient.is_empty nth_error].
  pose proof (strip_nil_iff u q) as Hstrip.
  destruct (unicode.strip u q) as [|c rest] eqn:E; cbn [negb].
  - split; [|reflexivity]. split; [discriminate|].
    intros (c & Hin & Hc).
    assert (H : forallb (unicode.isspace u) q = true) by now apply Hstrip.
    rewrite forallb_forall in H. rewrite (H c Hin) in Hc. discriminate.
  - split; [|reflexivity]. split; [|reflexivity]. intros _.
    assert (Hn : forallb (unicode.isspace u) q <> true)
      by (intros F; apply Hstrip in F; discriminate F).
    destruct (existsb (fun c => negb (unicode.isspace u c)) q) eqn:X.
    + apply existsb_exists in X. destruct X as (x & Hin & Hx).
      exists x. split; [exact Hin|]. now apply negb_true_iff.
    + exfalso. apply Hn. apply forallb_forall. intros x Hin.
      destruct (unicode.isspace u x) eqn:Hx; [reflexivity|].
      assert (existsb (fun c => negb (unicode.isspace u c)) q = true).
      { apply existsb_exists. exists x. now rewrite Hx. }
      congruence.
Qed.

(** The keyword checks of [validate_query] ignore letter case and
    position: a query that holds, anywhere, text whose uppercase is MATCH
    (RETURN) has [has_match] ([has_return]) set, and text whose uppercase
    is ALL or COLLECT, or a star, rates it "high" and brings the
    complexity warning. *)
Theorem validate_query_keywords_any_case
    (u : unicode.Database) (before word after : str) :
  let r := CypherClient.validate_query u (before ++ word ++ after) in
  (unicode.upper u word = lit "MATCH" ->
   CypherClient.has_match (CypherClient.checks r) = true) /\
  (unicode.upper u word = lit "RETURN" ->
   CypherClient.has_return (CypherClient.checks r) = true) /\
  (unicode.upper u word = lit "ALL" \/ unicode.upper u word = lit "COLLECT"
     \/ unicode.upper u word = lit "*" ->
   CypherClient.estimated_complexity (CypherClient.checks r) = lit "high" /\
   nth_error (CypherClient.warnings r) 1 = Some (Some (lit "Query may have high complexity"))).
Proof.
  cbv zeta. unfold CypherClient.validate_query.
  cbn [CypherClient.checks CypherClient.has_match CypherClient.has_return
       CypherClient.estimated_complexity CypherClient.warnings nth_error].
  rewrite !upper_app.
  split; [|split].
  - intros ->. apply contains_middle.
  - intros ->. apply contains_middle.
  - intros H.
    assert (E : existsb
                  (fun keyword =>
                     unicode.contains
                       (unicode.upper u before ++ unicode.upper u word ++ unicode.upper u after)
                       keyword)
                  [lit "*"; lit "ALL"; lit "COLLECT"] = true).
    { cbn [existsb]. destruct H as [-> | [-> | ->]]; rewrite contains_middle;
        rewrite ?orb_true_r; reflexivity. }
    rewrite E. split; reflexivity.
Qed.

Lemma validate_query_keywords_any_case_witness :
  let u := {| unicode.toupper_full := fun c => [c]; unicode.isspace_other := fun _ => false |} in
  let r := CypherClient.validate_query u (lit "c" ++ lit "all" ++ lit " db.labels()") in
  CypherClient.estimated_complexity (CypherClient.checks r) = lit "high" /\
  nth_error (CypherClient.warnings r) 1 = Some (Some (lit "Query may have high complexity")).
Proof.
  intros u.
  apply (proj2 (proj2 (validate_query_keywords_any_case u (lit "c") (lit "all")
                         (lit " db.labels()")))).
  left. reflexivity.
Defined.

(* ================================================================== *)
(** ** The saved queries and the accessors, on the wire *)

(** What an optional filter adds to the query string: ["&key=value"]
    when it is given and not empty, nothing otherwise. *)
Definition query_part (key : string) (x : option str) : str :=
  match x with
  | Some (c :: rest) => lit "&" ++ lit key ++ lit "=" ++ c :: rest
  | _ => []
  end.

(** The request a facade call put in the log. *)
Lemma request_sent_inv
    (w : World) (self : BloodhoundBaseClient) (m p : str)
    (params data : option (list (str * value))) (s : State) (req : requests.Request) :
  log (snd (request w self m p params data s)) = log s ++ [Sent req] ->
  requests.method req = m /\
  requests.url req = _format_url self (with_params w p params) /\
  requests.data req = json_body w data.
Proof.
  rewrite request_state. intros H.
  destruct (_request_sent_inv w self m _ _ s req H) as (k & op & hr & _ & _ & _ & ->).
  repeat split.
Qed.

Ltac normalize_strings :=
  cbn [with_params CypherClient.set_if CypherClient.setitem str_eqb startswith
       map fst snd join py_str app query_part lit list_ascii_of_string
       List.length Nat.eqb N.eqb Pos.eqb N_of_ascii N_of_digits andb
       N.add N.mul Pos.add Pos.succ Pos.mul];
  rewrite ?app_nil_r.

(** [list_saved_queries] asks for
    [/api/v2/saved-queries?skip=S&limit=L] followed by [&sortby=],
    [&name=], [&query=], [&userid=] and [&scope=] for the filters that are
    given and not empty, in that order, the values as they are; a filter
    that is [None] or [""] leaves no trace in the query string.  The
    request is a GET without a body. *)
Theorem list_saved_queries_query_string
    (w : World) (self : BloodhoundBaseClient) (skip limit : Z)
    (sort_by name query user_id scope : option str)
    (s : State) (req : requests.Request) :
  log (snd (CypherClient.list_saved_queries w self skip limit
              sort_by name query user_id scope s)) = log s ++ [Sent req] ->
  requests.method req = lit "GET" /\
  requests.data req = None /\
  requests.url req =
    _format_url self
      (lit "/api/v2/saved-queries?skip=" ++ str_of_int skip
         ++ lit "&limit=" ++ str_of_int limit
         ++ query_part "sortby" sort_by ++ query_part "name" name
         ++ query_part "query" query ++ query_part "userid" user_id
         ++ query_part "scope" scope).
Proof.
  unfold CypherClient.list_saved_queries. intros H.
  apply request_sent_inv in H. destruct H as (Hm & Hu & Hd).
  split; [exact Hm|]. split; [exact Hd|].
  rewrite Hu. f_equal.
  destruct sort_by as [[|c1 r1]|]; destruct name as [[|c2 r2]|];
    destruct query as [[|c3 r3]|]; destruct user_id as [[|c4 r4]|];
    destruct scope as [[|c5 r5]|];
    normalize_strings; reflexivity.
Qed.

Lemma list_saved_queries_query_string_witness :
  let w := Samples.world (fun _ => Samples.answer 200 (Some (PDict []))) in
  let req :=
    signed Samples.client (lit "GET")
      (lit "/api/v2/saved-queries?skip=0&limit=100&name=kerberoast&scope=owned")
      None (lit "2024-01-15T14:30:00.123456+01:00") (blit "k")
      (blit "GET/api/v2/saved-queries?skip=0&limit=100&name=kerberoast&scope=owned")
      (blit "2024-01-15T14") in
  requests.method req = lit "GET" /\
  requests.data req = None /\
  requests.url req =
    _format_url Samples.client
      (lit "/api/v2/saved-queries?skip=" ++ str_of_int 0
         ++ lit "&limit=" ++ str_of_int 100
         ++ query_part "sortby" None ++ query_part "name" (Some (lit "kerberoast"))
         ++ query_part "query" (Some []) ++ query_part "userid" None
         ++ query_part "scope" (Some (lit "owned"))).
Proof.
  intros w req.
  apply (list_saved_queries_query_string w Samples.client 0 100
           None (Some (lit "kerberoast")) (Some []) None (Some (lit "owned"))
           Samples.start req).
  vm_compute. reflexivity.
Defined.

(** [update_saved_query] sends a PUT to the query's path, and sends no
    body at all exactly when none of name, query and description is given
    (each [None] or [""]): the empty dictionary is not encoded as [{}]. *)
Theorem update_saved_query_body
    (w : World) (self : BloodhoundBaseClient) (query_id : Z)
    (name query description : option str) (s : State) (req : requests.Request) :
  log (snd (CypherClient.update_saved_query w self query_id name query description s))
    = log s ++ [Sent req] ->
  requests.method req = lit "PUT" /\
  requests.url req =
    _format_url self (lit "/api/v2/saved-queries/" ++ str_of_int query_id) /\
  (requests.data req = None <->
   truthy name = false /\ truthy query = false /\ truthy description = false).
Proof.
  unfold CypherClient.update_saved_query. intros H.
  apply request_sent_inv in H. destruct H as (Hm & Hu & Hd).
  split; [exact Hm|]. split; [exact Hu|]. rewrite Hd.
  destruct name as [[|c1 r1]|]; destruct query as [[|c2 r2]|];
    destruct description as [[|c3 r3]|];
    cbn; (split; [intros E; try discriminate E; auto | intros (E1 & E2 & E3);
                  try discriminate E1; try discriminate E2; try discriminate E3;
                  reflexivity]).
Qed.

Lemma update_saved_query_body_witness :
  let w := Samples.world (fun _ => Samples.answer 200 (Some (PDict []))) in
  let req :=
    signed Samples.client (lit "PUT") (lit "/api/v2/saved-queries/7")
      None (lit "2024-01-15T14:30:00.123456+01:00") (blit "k")
      (blit "PUT/api/v2/saved-queries/7") (blit "2024-01-15T14") in
  requests.method req = lit "PUT" /\
  requests.url req = _format_url Samples.client (lit "/api/v2/saved-queries/" ++ str_of_int 7) /\
  (requests.data req = None <->
   truthy None = false /\ truthy (Some []) = false /\ truthy None = false).
Proof.
  intros w req.
  apply (update_saved_query_body w Samples.client 7 None (Some []) None Samples.start req).
  vm_compute. reflexivity.
Defined.

(** [create_saved_query] always sends a JSON body with [name] and
    [query], in that order, and adds [description] only when it is given
    and not empty. *)
Theorem create_saved_query_body
    (w : World) (self : BloodhoundBaseClient) (name query : str)
    (description : option str) (s : State) (req : requests.Request) :
  log (snd (CypherClient.create_saved_query w self name query description s))
    = log s ++ [Sent req] ->
  requests.method req = lit "POST" /\
  requests.url req = _format_url self (lit "/api/v2/saved-queries") /\
  requests.data req =
    Some (json_dumps_utf8 w
            (PDict ((lit "name", PStr name) :: (lit "query", PStr query)
                    :: match description with
                       | Some (c :: rest) => [(lit "description", PStr (c :: rest))]
                       | _ => []
                       end))).
Proof.
  unfold CypherClient.create_saved_query. intros H.
  apply request_sent_inv in H. destruct H as (Hm & Hu & Hd).
  split; [exact Hm|]. split; [exact Hu|]. rewrite Hd.
  destruct description as [[|c r]|]; reflexivity.
Qed.

Lemma create_saved_query_body_witness :
  let w := Samples.world (fun _ => Samples.answer 200 (Some (PDict []))) in
  let body :=
    Some (json_dumps_utf8 w
            (PDict [(lit "name", PStr (lit "n")); (lit "query", PStr (lit "q"))])) in
  let req :=
    signed Samples.client (lit "POST") (lit "/api/v2/saved-queries")
      body (lit "2024-01-15T14:30:00.123456+01:00") (blit "k")
      (blit "POST/api/v2/saved-queries") (blit "2024-01-15T14") in
  requests.method req = lit "POST" /\
  requests.url req = _format_url Samples.client (lit "/api/v2/saved-queries") /\
  requests.data req = body.
Proof.
  intros w body req.
  apply (create_saved_query_body w Samples.client (lit "n") (lit "q") (Some [])
           Samples.start req).
  vm_compute. reflexivity.
Defined.

(** [share_saved_query] always sends a body: [public] first, and
    [userids] after it only when the list is given and not empty. *)
Theorem share_saved_query_body
    (w : World) (self : BloodhoundBaseClient) (query_id : Z)
    (user_ids : option (list str)) (public : bool) (s : State) (req : requests.Request) :
  log (snd (CypherClient.share_saved_query w self query_id user_ids public s))
    = log s ++ [Sent req] ->
  requests.method req = lit "PUT" /\
  requests.url req =
    _format_url self
      (lit "/api/v2/saved-queries/" ++ str_of_int query_id ++ lit "/permissions") /\
  requests.data req =
    Some (json_dumps_utf8 w
            (PDict ((lit "public", PBool public)
                    :: match user_ids with
                       | Some (i :: ids) => [(lit "userids", PList (map PStr (i :: ids)))]
                       | _ => []
                       end))).
Proof.
  unfold CypherClient.share_saved_query. intros H.
  apply request_sent_inv in H. destruct H as (Hm & Hu & Hd).
  split; [exact Hm|]. split; [exact Hu|]. rewrite Hd.
  destruct user_ids as [[|i ids]|]; reflexivity.
Qed.

Lemma share_saved_query_body_witness :
  let w := Samples.world (fun _ => Samples.answer 200 (Some (PDict []))) in
  let body := Some (json_dumps_utf8 w (PDict [(lit "public", PBool true)])) in
  let req :=
    signed Samples.client (lit "PUT") (lit "/api/v2/saved-queries/7/permissions")
      body (lit "2024-01-15T14:30:00.123456+01:00") (blit "k")
      (blit "PUT/api/v2/saved-queries/7/permissions") (blit "2024-01-15T14") in
  requests.method req = lit "PUT" /\
  requests.url req =
    _format_url Samples.client
      (lit "/api/v2/saved-queries/" ++ str_of_int 7 ++ lit "/permissions") /\
  requests.data req = body.
Proof.
  intros w body req.
  apply (share_saved_query_body w Samples.client 7 (Some []) true Samples.start req).
  vm_compute. reflexivity.
Defined.

(** [DomainClient.search_objects] asks for
    [/api/v2/search?q=Q&limit=L&skip=S], the query text as it is (nothing
    is percent-encoded), and appends [&type=T] only when a type is given
    and not empty. *)
Theorem search_objects_query_string
    (w : World) (self : BloodhoundBaseClient) (query : str) (type : option str)
    (limit skip : Z) (s : State) (req : requests.Request) :
  log (snd (DomainClient.search_objects w self query type limit skip s))
    = log s ++ [Sent req] ->
  requests.method req = lit "GET" /\
  requests.data req = None /\
  requests.url req =
    _format_url self
      (lit "/api/v2/search?q=" ++ query ++ lit "&limit=" ++ str_of_int limit
         ++ lit "&skip=" ++ str_of_int skip ++ query_part "type" type).
Proof.
  unfold DomainClient.search_objects. intros H.
  apply request_sent_inv in H. destruct H as (Hm & Hu & Hd).
  split; [exact Hm|]. split; [exact Hd|].
  rewrite Hu. f_equal.
  destruct type as [[|c r]|]; normalize_strings; rewrite <- ?app_assoc;
    reflexivity.
Qed.

Lemma search_objects_query_string_witness :
  let w := Samples.world (fun _ => Samples.answer 200 (Some (PDict []))) in
  let req :=
    signed Samples.client (lit "GET")
      (lit "/api/v2/search?q=a&b c&limit=100&skip=0")
      None (lit "2024-01-15T14:30:00.123456+01:00") (blit "k")
      (blit "GET/api/v2/search?q=a&b c&limit=100&skip=0")
      (blit "2024-01-15T14") in
  requests.method req = lit "GET" /\
  requests.data req = None /\
  requests.url req =
    _format_url Samples.client
      (lit "/api/v2/search?q=" ++ lit "a&b c" ++ lit "&limit=" ++ str_of_int 100
         ++ lit "&skip=" ++ str_of_int 0 ++ query_part "type" None).
Proof.
  intros w req.
  apply (search_objects_query_string w Samples.client (lit "a&b c") None 100 0
           Samples.start req).
  vm_compute. reflexivity.
Defined.

(** A list accessor, [DomainClient.get_users]: a GET without a body for
    [/api/v2/domains/<domain id>/users?limit=L&skip=S&type=list], the
    identifier placed in the path as it is. *)
Theorem get_users_query_string
    (w : World) (self : BloodhoundBaseClient) (domain_id : str) (limit skip : Z)
    (s : State) (req : requests.Request) :
  log (snd (DomainClient.get_users w self domain_id limit skip s)) = log s ++ [Sent req] ->
  requests.method req = lit "GET" /\
  requests.data req = None /\
  requests.url req =
    _format_url self
      (lit "/api/v2/domains/" ++ domain_id ++ lit "/users?limit=" ++ str_of_int limit
         ++ lit "&skip=" ++ str_of_int skip ++ lit "&type=list").
Proof.
  unfold DomainClient.get_users. intros H.
  apply request_sent_inv in H. destruct H as (Hm & Hu & Hd).
  split; [exact Hm|]. split; [exact Hd|].
  rewrite Hu. f_equal.
  normalize_strings. rewrite <- ?app_assoc. reflexivity.
Qed.

Lemma get_users_query_string_witness :
  let w := Samples.world (fun _ => Samples.answer 200 (Some (PDict []))) in
  let req :=
    signed Samples.client (lit "GET")
      (lit "/api/v2/domains/S-1-5-21/users?limit=10&skip=20&type=list")
      None (lit "2024-01-15T14:30:00.123456+01:00") (blit "k")
      (blit "GET/api/v2/domains/S-1-5-21/users?limit=10&skip=20&type=list")
      (blit "2024-01-15T14") in
  requests.method req = lit "GET" /\
  requests.data req = None /\
  requests.url req =
    _format_url Samples.client
      (lit "/api/v2/domains/" ++ lit "S-1-5-21" ++ lit "/users?limit=" ++ str_of_int 10
         ++ lit "&skip=" ++ str_of_int 20 ++ lit "&type=list").
Proof.
  intros w req.
  apply (get_users_query_string w Samples.client (lit "S-1-5-21") 10 20 Samples.start req).
  vm_compute. reflexivity.
Defined.

(** [GraphClient.get_shortest_path] asks for
    [/api/v2/graphs/shortest-path?start_node=A&end_node=B] and appends
    [&relationshipkinds=K] only when the filter is given and not empty. *)
Theorem get_shortest_path_query_string
    (w : World) (self : BloodhoundBaseClient) (start_node end_node : str)
    (relationship_kinds : option str) (s : State) (req : requests.Request) :
  log (snd (GraphClient.get_shortest_path w self start_node end_node
              relationship_kinds s)) = log s ++ [Sent req] ->
  requests.method req = lit "GET" /\
  requests.data req = None /\
  requests.url req =
    _format_url self
      (lit "/api/v2/graphs/shortest-path?start_node=" ++ start_node
         ++ lit "&end_node=" ++ end_node
         ++ query_part "relationshipkinds" relationship_kinds).
Proof.
  unfold GraphClient.get_shortest_path. intros H.
  apply request_sent_inv in H. destruct H as (Hm & Hu & Hd).
  split; [exact Hm|]. split; [exact Hd|].
  rewrite Hu. f_equal.
  destruct relationship_kinds as [[|c r]|]; normalize_strings; rewrite <- ?app_assoc;
    reflexivity.
Qed.

Lemma get_shortest_path_query_string_witness :
  let w := Samples.world (fun _ => Samples.answer 200 (Some (PDict []))) in
  let req :=
    signed Samples.client (lit "GET")
      (lit "/api/v2/graphs/shortest-path?start_node=1&end_node=2&relationshipkinds=MemberOf")
      None (lit "2024-01-15T14:30:00.123456+01:00") (blit "k")
      (blit "GET/api/v2/graphs/shortest-path?start_node=1&end_node=2&relationshipkinds=MemberOf")
      (blit "2024-01-15T14") in
  requests.method req = lit "GET" /\
  requests.data req = None /\
  requests.url req =
    _format_url Samples.client
      (lit "/api/v2/graphs/shortest-path?start_node=" ++ lit "1"
         ++ lit "&end_node=" ++ lit "2"
         ++ query_part "relationshipkinds" (Some (lit "MemberOf"))).
Proof.
  intros w req.
  apply (get_shortest_path_query_string w Samples.client (lit "1") (lit "2")
           (Some (lit "MemberOf")) Samples.start req).
  vm_compute. reflexivity.
Defined.

(* ================================================================== *)
(** ** Reading [data] out of an answer, and the wrappers that swallow errors *)

(** [DomainClient.get_all] returns a value exactly when the answer is a
    JSON object with a [data] field, and then that field; it does not
    default: an object without [data] raises [KeyError('data')], an answer
    that is no object raises [TypeError], and an exception of the request
    comes out unchanged. *)
Theorem get_all_returns_data_field
    (w : World) (self : BloodhoundBaseClient) (s : State) :
  let call := request w self (lit "GET") (lit "/api/v2/available-domains") None None s in
  (forall d,
     fst (DomainClient.get_all w self s) = inl d <->
     exists fields, fst call = Ok (PDict fields) /\ lookup (lit "data") fields = Some d) /\
  (forall fields,
     fst call = Ok (PDict fields) -> lookup (lit "data") fields = None ->
     fst (DomainClient.get_all w self s) = inr (DomainClient.KeyError (lit "data"))) /\
  (forall v,
     fst call = Ok v -> (forall fields, v <> PDict fields) ->
     fst (DomainClient.get_all w self s) = inr (DomainClient.Exn TypeError)) /\
  (forall e,
     fst call = Raise e ->
     fst (DomainClient.get_all w self s) = inr (DomainClient.Exn e)) /\
  snd (DomainClient.get_all w self s) = snd call.
Proof.
  cbv zeta. unfold DomainClient.get_all.
  destruct (request w self (lit "GET") (lit "/api/v2/available-domains") None None s)
    as [[v|e] s1]; cbn [fst snd].
  - split; [|split; [|split; [|split]]]; try reflexivity.
    + intros d. unfold DomainClient.getitem. split.
      * destruct v as [| | | | | |fields]; try discriminate.
        destruct (lookup (lit "data") fields) as [x|] eqn:L; [|discriminate].
        intros [= <-]. exists fields. split; [reflexivity|exact L].
      * intros (fields & [= ->] & L). cbv beta iota. now rewrite L.
    + intros fields [= ->] L. unfold DomainClient.getitem. now rewrite L.
    + intros v' [= <-] Hv. destruct v; try reflexivity. now destruct (Hv items).
    + intros e' [=].
  - split; [|split; [|split; [|split]]]; try reflexivity.
    + intros d. split; [discriminate|]. intros (fields & [=] & _).
    + intros fields [=].
    + intros v [=].
    + intros e' [= <-]. reflexivity.
Qed.

Lemma get_all_returns_data_field_witness :
  fst (DomainClient.get_all (Samples.world (fun _ => Samples.answer 200 (Some (PDict []))))
         Samples.client Samples.start)
  = inr (DomainClient.KeyError (lit "data")).
Proof.
  apply (proj1 (proj2 (get_all_returns_data_field
                         (Samples.world (fun _ => Samples.answer 200 (Some (PDict []))))
                         Samples.client Samples.start)) []);
    vm_compute; reflexivity.
Defined.

(** [BloodhoundAPI.test_connection] never lets an exception out.  Either
    the answer was a JSON object with a [data] field, which it returns
    without printing; or it returns [None] and has printed one line
    "Connection test failed: ..." for the exception of the request or of
    the subscript.  It makes no more than the one request. *)
Theorem test_connection_swallows_errors
    (w : World) (base_client : BloodhoundBaseClient) (s : State)
    (out : list BloodhoundAPI.Line) :
  let call := request w base_client (lit "GET") (lit "/api/version") None None s in
  let r := BloodhoundAPI.test_connection w base_client (s, out) in
  fst (snd r) = snd call /\
  ((snd (snd r) = out /\
    exists fields,
      fst call = Ok (PDict fields) /\ lookup (lit "data") fields = Some (fst r))
   \/
   (fst r = PNone /\
    exists e,
      snd (snd r) =
        out ++ [{| BloodhoundAPI.prefix := lit "Connection test failed: ";
                   BloodhoundAPI.cause := e |}] /\
      forall fields,
        fst call = Ok (PDict fields) -> lookup (lit "data") fields = None)).
Proof.
  cbv zeta. unfold BloodhoundAPI.test_connection.
  destruct (request w base_client (lit "GET") (lit "/api/version") None None s)
    as [[v|e] s1]; cbn [fst snd].
  - unfold DomainClient.getitem.
    destruct v as [| | | | | |fields];
      try (split; [reflexivity|]; right; split; [reflexivity|];
           eexists; split; [reflexivity|]; intros f [=]).
    destruct (lookup (lit "data") fields) as [d|] eqn:L; cbn [fst snd].
    + split; [reflexivity|]. left. split; [reflexivity|]. exists fields. now split.
    + split; [reflexivity|]. right. split; [reflexivity|].
      eexists. split; [reflexivity|]. intros f [= <-]. exact L.
  - split; [reflexivity|]. right. split; [reflexivity|].
    eexists. split; [reflexivity|]. intros f [=].
Qed.

(** [BloodhoundAPI.get_self_info] returns the decoded answer of
    [/api/v2/self] as it is, and on any exception of the request returns
    [None] after printing one line "Failed to get user info: ...". *)
Theorem get_self_info_swallows_errors
    (w : World) (base_client : BloodhoundBaseClient) (s : State)
    (out : list BloodhoundAPI.Line) :
  let call := request w base_client (lit "GET") (lit "/api/v2/self") None None s in
  let r := BloodhoundAPI.get_self_info w base_client (s, out) in
  fst (snd r) = snd call /\
  ((fst call = Ok (fst r) /\ snd (snd r) = out)
   \/
   (fst r = PNone /\
    exists e,
      fst call = Raise e /\
      snd (snd r) =
        out ++ [{| BloodhoundAPI.prefix := lit "Failed to get user info: ";
                   BloodhoundAPI.cause := DomainClient.Exn e |}])).
Proof.
  cbv zeta. unfold BloodhoundAPI.get_self_info.
  destruct (request w base_client (lit "GET") (lit "/api/v2/self") None None s)
    as [[v|e] s1]; cbn [fst snd].
  - split; [reflexivity|]. left. now split.
  - split; [reflexivity|]. right. split; [reflexivity|]. exists e. now split.
Qed.
